(** * eboekhouden_client: the session client of [eboekhouden.py]

    A shallow embedding of [EBoekhoudenClient] (src/eboekhouden_client/
    eboekhouden.py) and of [DateFilterOperator] (enums.py).

    - Python objects that travel through the client (decoded JSON bodies,
      query parameter values, the session token) are values of [json];
      the dictionaries handed to [requests] are [gmap string _].
    - The object [self] is the record [client]; the methods thread it,
      together with the list of requests put on the wire, through the
      state-and-exception monad [M].
    - The remote service is a parameter: a function from the requests seen
      so far and the current request to a response (or to a transport
      failure).
    - [while True] in [get_mutations] is a loop with fuel. *)

From stdpp Require Import gmap strings list fin_maps.

Open Scope string_scope.
Open Scope list_scope.
Open Scope Z_scope.

(** ** Python values *)

(** What [json.loads] / [response.json()] produce, which is also what the
    client stores in [self.session_token] and puts in [params].  Numbers
    are the integers; [JNull] is [None].  A decoded object keeps its keys
    in insertion order, as a Python [dict] does; the dictionaries the
    client builds itself (headers, params) are finite maps. *)
#[local] Unset Elimination Schemes.
Inductive json : Type :=
| JNull
| JBool (b : bool)
| JNum (n : Z)
| JStr (s : string)
| JArr (l : list json)
| JObj (d : list (string * json)).
#[local] Set Elimination Schemes.

(** [bool(v)]: the test behind [if v] and [not v]. *)
Definition truthy (v : json) : bool :=
  match v with
  | JNull => false
  | JBool b => b
  | JNum n => negb (n =? 0)
  | JStr s => negb (String.eqb s "")
  | JArr l => match l with [] => false | _ :: _ => true end
  | JObj d => match d with [] => false | _ :: _ => true end
  end.

(** [bool(s)] for an argument annotated [Optional[str]]. *)
Definition truthy_str (s : option string) : bool :=
  match s with
  | None => false
  | Some s => negb (String.eqb s "")
  end.

(** ** enums.py *)

Module DateFilterOperator.
Inductive t : Type := EQ | NOT_EQ | GT | GTE | LT | LTE | RANGE.

Definition value (op : t) : string :=
  match op with
  | EQ => "eq"
  | NOT_EQ => "not_eq"
  | GT => "gt"
  | GTE => "gte"
  | LT => "lt"
  | LTE => "lte"
  | RANGE => "range"
  end.

Definition eqb (a b : t) : bool :=
  match a, b with
  | EQ, EQ | NOT_EQ, NOT_EQ | GT, GT | GTE, GTE
  | LT, LT | LTE, LTE | RANGE, RANGE => true
  | _, _ => false
  end.
End DateFilterOperator.

(** ** The [requests] library *)

Inductive http_method : Type := GET | POST | DELETE.

(** One call of [requests.get] / [requests.post] / [requests.delete] with
    the keyword arguments the client passes. *)
Record request : Type := Request {
  req_method : http_method;
  req_url : string;
  req_headers : gmap string string;
  req_params : option (gmap string json);
  req_json : option json;
  req_timeout : Z
}.

(** [requests.Response]: the status code, and the body as [.json()] sees
    it ([None] when the text does not decode). *)
Record response : Type := Response {
  status_code : Z;
  body : option json
}.

Inductive exn : Type :=
| ValueError (msg : string)
| HTTPError (r : response)
| JSONDecodeError
| AttributeError
| TypeError
| RequestException.

Inductive outcome (A : Type) : Type :=
| Returned (a : A)
| Raised (e : exn)
| OutOfFuel.
Arguments Returned {A} a.
Arguments Raised {A} e.
Arguments OutOfFuel {A}.

(** ** The client object and the monad of its methods *)

(** The attributes [__init__] creates.  Those annotated [Optional[str]]
    hold whatever the credentials and the session response contained. *)
Record client : Type := Client {
  api_version : string;
  api_url : string;
  access_token : json;
  source : json;
  session_token : json;
  api_headers : json
}.

Definition set_session_token (tok : json) (c : client) : client :=
  {| api_version := api_version c; api_url := api_url c;
     access_token := access_token c; source := source c;
     session_token := tok; api_headers := api_headers c |}.

Definition set_credentials (tok src : json) (c : client) : client :=
  {| api_version := api_version c; api_url := api_url c;
     access_token := tok; source := src;
     session_token := session_token c; api_headers := api_headers c |}.

(** [self] and the requests issued so far, oldest first. *)
Record state : Type := State {
  self : client;
  sent : list request
}.

Definition M (A : Type) : Type := state → outcome A * state.

Definition ret {A} (a : A) : M A := fun st => (Returned a, st).

Definition raise {A} (e : exn) : M A := fun st => (Raised e, st).

Definition bind {A B} (m : M A) (k : A → M B) : M B :=
  fun st =>
    match m st with
    | (Returned a, st') => k a st'
    | (Raised e, st') => (Raised e, st')
    | (OutOfFuel, st') => (OutOfFuel, st')
    end.

Definition lift {A} (o : outcome A) : M A := fun st => (o, st).

Definition get_self : M client := fun st => (Returned (self st), st).

Declare Scope py_scope.
Delimit Scope py_scope with py.
Notation "x <- m ;; k" := (bind m (fun x => k))
  (at level 100, m at next level, right associativity) : py_scope.
Notation "m ;;; k" := (bind m (fun _ => k))
  (at level 100, right associativity) : py_scope.
Open Scope py_scope.

Definition modify_self (f : client → client) : M unit :=
  fun st => (Returned tt, {| self := f (self st); sent := sent st |}).

(** ** Built-ins used by the client *)

(** [d.get(key, default)] on a decoded body; an object that is not a
    [dict] has no attribute [get]. *)
Fixpoint assoc (key : string) (d : list (string * json)) : option json :=
  match d with
  | [] => None
  | (k, v) :: d' => if String.eqb k key then Some v else assoc key d'
  end.

Definition py_get (obj : json) (key : string) (dflt : json) : outcome json :=
  match obj with
  | JObj d => Returned (default dflt (assoc key d))
  | _ => Raised AttributeError
  end.

(** [f"{s}"] for an argument annotated [Optional[str]]. *)
Definition format_str (s : option string) : string :=
  match s with
  | Some s => s
  | None => "None"
  end.

(** The characters of a string, as [for ch in s] yields them. *)
Fixpoint chars (s : string) : list json :=
  match s with
  | EmptyString => []
  | String a s' => JStr (String a EmptyString) :: chars s'
  end.

(** [all_items.extend(items)]: a list gives its elements, a string its
    characters, a dictionary its keys; other objects are not iterable. *)
Definition list_extend (all_items : list json) (items : json) : outcome (list json) :=
  match items with
  | JArr l => Returned (all_items ++ l)
  | JStr s => Returned (all_items ++ chars s)
  | JObj d => Returned (all_items ++ map (fun kv => JStr (fst kv)) d)
  | JNull | JBool _ | JNum _ => Raised TypeError
  end.

(** [response.json()] *)
Definition response_json (r : response) : outcome json :=
  match body r with
  | Some j => Returned j
  | None => Raised JSONDecodeError
  end.

(** [response.raise_for_status()]: [requests] raises for the client error
    codes 400..499 and the server error codes 500..599, and returns
    [None] for every other code. *)
Definition raise_for_status (r : response) : outcome unit :=
  if (400 <=? status_code r) && (status_code r <? 600)
  then Raised (HTTPError r)
  else Returned tt.

(** ** EBoekhoudenClient *)

Definition BASE_URL : string := "https://api.e-boekhouden.nl".
Definition PAGE_LIMIT : Z := 100.

(** Lines 78-84 of [__init__]. *)
Definition new_client (version : string) : client :=
  {| api_version := version;
     api_url := BASE_URL +:+ "/" +:+ version;
     access_token := JNull; source := JNull;
     session_token := JNull; api_headers := JNull |}.

(** [_get_date_filter] (lines 137-167) reads nothing of [self]. *)
Definition _get_date_filter (parameter : string)
    (operator : option DateFilterOperator.t)
    (start_date end_date : option string) : outcome (gmap string json) :=
  match operator with
  | None =>
      Raised (ValueError ("Operator is required for date filtering on " +:+ parameter))
  | Some op =>
      if DateFilterOperator.eqb op DateFilterOperator.RANGE then
        if negb (truthy_str start_date) || negb (truthy_str end_date) then
          Raised (ValueError "Range operator requires both start_date and end_date")
        else
          Returned {[ parameter +:+ "[" +:+ DateFilterOperator.value op +:+ "]" :=
                        JStr (format_str start_date +:+ "," +:+ format_str end_date) ]}
      else if negb (truthy_str start_date) then
        Raised (ValueError ("Operator " +:+ DateFilterOperator.value op
                              +:+ " requires a start_date value"))
      else
        Returned {[ parameter +:+ "[" +:+ DateFilterOperator.value op +:+ "]" :=
                      JStr (format_str start_date) ]}
  end.

Section Client.

(** [str(v)] of an object that is not a string; the client only ever
    formats the session token, and the development never looks inside. *)
Variable py_str_other : json → string.

(** The remote service: its answer to a request, given the requests it
    has seen before; [None] is a failure of the transport (no response). *)
Variable server : list request → request → option response.

Definition py_str (v : json) : string :=
  match v with
  | JStr s => s
  | _ => py_str_other v
  end.

Definition send (rq : request) : M response :=
  fun st =>
    let st' := {| self := self st; sent := sent st ++ [rq] |} in
    match server (sent st) rq with
    | Some r => (Returned r, st')
    | None => (Raised RequestException, st')
    end.

Definition requests_get (url : string) (headers : gmap string string)
    (params : option (gmap string json)) : M response :=
  send (Request GET url headers params None 10).

Definition requests_post (url : string) (payload : json)
    (headers : gmap string string) : M response :=
  send (Request POST url headers None (Some payload) 10).

Definition requests_delete (url : string) (headers : gmap string string) : M response :=
  send (Request DELETE url headers None None 10).

(** Lines 110-117, on the object [data] that lines 99-108 decoded from
    the file or the string. *)
Definition _parse_service_account_file (data : json) : M unit :=
  a <- lift (py_get data "access_token" JNull);;
  if negb (truthy a) then
    raise (ValueError "Service Account file must contain 'access_token' and 'source' fields.")
  else
    s <- lift (py_get data "source" JNull);;
    if negb (truthy s) then
      raise (ValueError "Service Account file must contain 'access_token' and 'source' fields.")
    else modify_self (set_credentials a s).

(** Lines 122-135. *)
Definition _authenticate : M unit :=
  c <- get_self;;
  let url := api_url c +:+ "/session" in
  let payload := JObj [("accessToken", access_token c); ("source", source c)] in
  let headers : gmap string string :=
    <["Content-Type" := "application/json"]> {[ "accept" := "application/json" ]} in
  response <- requests_post url payload headers;;
  if status_code response =? 200 then
    data <- lift (response_json response);;
    tok <- lift (py_get data "token" JNull);;
    modify_self (set_session_token tok)
  else
    lift (raise_for_status response).

(** [__init__] (lines 78-90), from the decoded credentials on; [wire]
    holds the requests sent before the client exists. *)
Definition init (data : json) (version : string) (wire : list request)
    : outcome unit * state :=
  (_parse_service_account_file data;;; _authenticate)
    {| self := new_client version; sent := wire |}.

Definition auth_error : exn :=
  ValueError "Authentication required. Call authenticate() first.".

(** Lines 169-177. *)
Definition _get_headers (c : client) : outcome (gmap string string) :=
  if negb (truthy (session_token c)) then Raised auth_error
  else
    Returned (<["Authorization" := "Bearer " +:+ py_str (session_token c)]>
              (<["Content-Type" := "application/json"]>
               {[ "accept" := "application/json" ]})).

(** The body shared by the accessors that end in
    [response.raise_for_status(); return {}] (lines 189-195, 207-213,
    229-235, 247-253, 265-271, 332-338, 351-357 and 370-376), for the
    path each of them appends to [self.api_url]. *)
Definition fetch (path : string) : M json :=
  c <- get_self;;
  let url := api_url c +:+ path in
  headers <- lift (_get_headers c);;
  response <- requests_get url headers None;;
  if status_code response =? 200 then lift (response_json response)
  else
    lift (raise_for_status response);;;
    ret (JObj []).

Definition get_cost_centers : M json := fetch "/costcenter".
Definition get_cost_center (cc_id : string) : M json := fetch ("/costcenter/" +:+ cc_id).
Definition get_invoices : M json := fetch "/invoice".
Definition get_ledgers : M json := fetch "/ledger".
Definition get_ledger (led_id : string) : M json := fetch ("/ledger/" +:+ led_id).
Definition get_mutation (mutation_id : string) : M json := fetch ("/mutation/" +:+ mutation_id).
Definition get_outstanding_invoices : M json := fetch "/mutation/invoice/outstanding".
Definition get_relation (rel_id : string) : M json := fetch ("/relation/" +:+ rel_id).

(** Lines 389-394: no [raise_for_status] here. *)
Definition get_relations : M json :=
  c <- get_self;;
  let url := api_url c +:+ "/relation" in
  headers <- lift (_get_headers c);;
  response <- requests_get url headers None;;
  if status_code response =? 200 then lift (response_json response)
  else ret (JObj []).

(** [params["offset"] = page_offset; params["limit"] = self.PAGE_LIMIT] *)
Definition page_params (params : gmap string json) (page_offset : Z) : gmap string json :=
  <["limit" := JNum PAGE_LIMIT]> (<["offset" := JNum page_offset]> params).

(** The [while True] loop of [get_mutations] (lines 304-318); one unit of
    fuel per pass.  [params] is the one dictionary that every pass
    updates in place; a request carries its contents at the time of the
    call. *)
Fixpoint mutations_loop (fuel : nat) (url : string) (params : gmap string json)
    (all_items : list json) (page_offset : Z) : M (list json) :=
  match fuel with
  | O => lift OutOfFuel
  | S fuel' =>
      let params := page_params params page_offset in
      c <- get_self;;
      headers <- lift (_get_headers c);;
      response <- requests_get url headers (Some params);;
      if status_code response =? 200 then
        data <- lift (response_json response);;
        items <- lift (py_get data "items" (JArr []));;
        if negb (truthy items) then ret all_items
        else
          all_items' <- lift (list_extend all_items items);;
          mutations_loop fuel' url params all_items' (page_offset + PAGE_LIMIT)
      else
        lift (raise_for_status response);;;
        mutations_loop fuel' url params all_items page_offset
  end.

(** Lines 291-320. *)
Definition get_mutations (fuel : nat) (start_date end_date : option string)
    (date_range : option DateFilterOperator.t) : M json :=
  c <- get_self;;
  let url := api_url c +:+ "/mutation" in
  params <- (if truthy_str start_date || truthy_str end_date
             then lift (_get_date_filter "date" date_range start_date end_date)
             else ret (∅ : gmap string json));;
  all_items <- mutations_loop fuel url params [] 0;;
  ret (JObj [("items", JArr all_items)]).

(** Lines 404-410. *)
Definition close : M bool :=
  c <- get_self;;
  let url := api_url c +:+ "/session" in
  headers <- lift (_get_headers c);;
  response <- requests_delete url headers;;
  if status_code response =? 204 then
    modify_self (set_session_token JNull);;;
    ret true
  else ret false.

(** ** Vocabulary of the statements *)

(** The resource accessors of the class, with their arguments.  A call of
    [get_mutations] carries the fuel it runs with beyond the first pass
    of the loop. *)
Inductive resource_call : Type :=
| CostCenters
| CostCenter (cc_id : string)
| Invoices
| Ledgers
| Ledger (led_id : string)
| Mutations (fuel : nat) (start_date end_date : option string)
    (date_range : option DateFilterOperator.t)
| Mutation (mutation_id : string)
| OutstandingInvoices
| Relation (rel_id : string)
| Relations.

Definition invoke (call : resource_call) : M json :=
  match call with
  | CostCenters => get_cost_centers
  | CostCenter cc_id => get_cost_center cc_id
  | Invoices => get_invoices
  | Ledgers => get_ledgers
  | Ledger led_id => get_ledger led_id
  | Mutations fuel start_date end_date date_range =>
      get_mutations (S fuel) start_date end_date date_range
  | Mutation mutation_id => get_mutation mutation_id
  | OutstandingInvoices => get_outstanding_invoices
  | Relation rel_id => get_relation rel_id
  | Relations => get_relations
  end.

(** [get_mutations] is the one paginated accessor. *)
Definition paginated (call : resource_call) : bool :=
  match call with
  | Mutations _ _ _ _ => true
  | _ => false
  end.

(** The path a non-paginated accessor appends to [self.api_url]. *)
Definition path_of (call : resource_call) : string :=
  match call with
  | CostCenters => "/costcenter"
  | CostCenter cc_id => "/costcenter/" +:+ cc_id
  | Invoices => "/invoice"
  | Ledgers => "/ledger"
  | Ledger led_id => "/ledger/" +:+ led_id
  | Mutations _ _ _ _ => "/mutation"
  | Mutation mutation_id => "/mutation/" +:+ mutation_id
  | OutstandingInvoices => "/mutation/invoice/outstanding"
  | Relation rel_id => "/relation/" +:+ rel_id
  | Relations => "/relation"
  end.

(** The dictionary [get_mutations] starts its loop with. *)
Definition initial_params (start_date end_date : option string)
    (date_range : option DateFilterOperator.t) : outcome (gmap string json) :=
  if truthy_str start_date || truthy_str end_date
  then _get_date_filter "date" date_range start_date end_date
  else Returned ∅.

(** The date arguments of a call do not make [_get_date_filter] raise. *)
Definition date_filter_ok (call : resource_call) : bool :=
  match call with
  | Mutations _ start_date end_date date_range =>
      match initial_params start_date end_date date_range with
      | Returned _ => true
      | _ => false
      end
  | _ => true
  end.

(** The request of [_authenticate], of [close], of an accessor, and of the
    [k]-th pass of the loop of [get_mutations]. *)
Definition session_post (c : client) : request :=
  Request POST (api_url c +:+ "/session")
    (<["Content-Type" := "application/json"]> {[ "accept" := "application/json" ]})
    None (Some (JObj [("accessToken", access_token c); ("source", source c)])) 10.

Definition session_delete (c : client) (headers : gmap string string) : request :=
  Request DELETE (api_url c +:+ "/session") headers None None 10.

Definition resource_get (c : client) (headers : gmap string string)
    (path : string) : request :=
  Request GET (api_url c +:+ path) headers None None 10.

Definition page_request (c : client) (headers : gmap string string)
    (params : gmap string json) (k : nat) : request :=
  Request GET (api_url c +:+ "/mutation") headers
    (Some (page_params params (PAGE_LIMIT * Z.of_nat k))) None 10.

(** A successful page: status 200 and the body [{"items": items}]. *)
Definition page_response (items : list json) : response :=
  Response 200 (Some (JObj [("items", JArr items)])).

(** The [offset] each logged request carried. *)
Definition offsets (wire : list request) : list (option json) :=
  map (fun rq => req_params rq ≫= (fun p => p !! "offset")) wire.

(** A bound of the date filter that [not start_date] / [not end_date]
    rejects: not passed, or passed as the empty string. *)
Definition unset (s : option string) : Prop := s = None ∨ s = Some "".

(** The inputs [_get_date_filter] asks for, by operator. *)
Definition inputs_unset (operator : option DateFilterOperator.t)
    (start_date end_date : option string) : Prop :=
  match operator with
  | None => True
  | Some DateFilterOperator.RANGE => unset start_date ∨ unset end_date
  | Some _ => unset start_date
  end.

(** The same requirement when only an argument that was not passed
    counts as missing. *)
Definition inputs_not_passed (operator : option DateFilterOperator.t)
    (start_date end_date : option string) : Prop :=
  match operator with
  | None => True
  | Some DateFilterOperator.RANGE => start_date = None ∨ end_date = None
  | Some _ => start_date = None
  end.

(** The key [f"{parameter}[{operator.value}]"]. *)
Definition filter_key (parameter : string) (op : DateFilterOperator.t) : string :=
  parameter +:+ "[" +:+ DateFilterOperator.value op +:+ "]".

(** The header set of an authenticated request. *)
Definition bearer_headers (tok : string) : gmap string string :=
  <["Authorization" := "Bearer " +:+ tok]>
    (<["Content-Type" := "application/json"]> {[ "accept" := "application/json" ]}).

End Client.

(** ** Services and values for the examples *)

(** A service that gives the same answer to every request. *)
Definition always (r : response) : list request → request → option response :=
  fun _ _ => Some r.

(** A service that answers the [k]-th request on the wire with the
    [k]-th response of a script, and nothing once the script is over. *)
Definition scripted (script : list response) : list request → request → option response :=
  fun wire _ => script !! length wire.

(** [str] of the objects the examples never format. *)
Definition str_other (v : json) : string :=
  match v with
  | JNull => "None"
  | JBool true => "True"
  | JBool false => "False"
  | _ => "<object>"
  end.

(** A client as [__init__] leaves it before [_authenticate]. *)
Definition fresh : client :=
  set_credentials (JStr "access") (JStr "app") (new_client "v1").

Definition signed_in (tok : string) : client := set_session_token (JStr tok) fresh.

(** Pages of 100, 100 and 37 items; the service then sends an empty one. *)
Definition three_pages : list (list json) :=
  [replicate 100 (JNum 1); replicate 100 (JNum 2); replicate 37 (JNum 3)].

(** ** enums.py: the reference tables *)

(** An [Enum] class is its members in the order of the class body, each
    with its value; [Cls(v)] looks a member up by value and finds the
    first one that has it. *)
Module MutationType.
Inductive t : Type := UNK | _1 | _2 | _3 | _4 | _5 | _6 | _7.

Definition value (m : t) : string :=
  match m with
  | UNK => "Unknown"
  | _1 => "Invoice Received"
  | _2 => "Invoice Sent"
  | _3 => "Invoice Payment Received"
  | _4 => "Invoice Payment Sent"
  | _5 => "Money Received"
  | _6 => "Money Sent"
  | _7 => "General Journal Entry"
  end.

Definition members : list t := [UNK; _1; _2; _3; _4; _5; _6; _7].

Definition of_value (v : string) : option t :=
  find (fun m => String.eqb (value m) v) members.
End MutationType.

Module LedgerCategory.
Inductive t : Type :=
  UNK | BAL | VW | AF6 | AF19 | AFOVERIG | VOOR | BTWRC | FIN | DEB | CRED | AF.

Definition value (m : t) : string :=
  match m with
  | UNK => "Unknown"
  | BAL => "Balance"
  | VW => "Profit and loss"
  | AF6 => "Turnover tax low rate"
  | AF19 => "Turnover tax high rate"
  | AFOVERIG => "Turnover tax other"
  | VOOR => "Input tax"
  | BTWRC => "VAT current account"
  | FIN => "Liquid Assets"
  | DEB => "Debtors"
  | CRED => "Creditors"
  | AF => "Turnover tax"
  end.

Definition members : list t :=
  [UNK; BAL; VW; AF6; AF19; AFOVERIG; VOOR; BTWRC; FIN; DEB; CRED; AF].

Definition of_value (v : string) : option t :=
  find (fun m => String.eqb (value m) v) members.
End LedgerCategory.

Module VATCodes.
Inductive t : Type :=
  HOOG_VERK_21 | LAAG_VERK_9 | VERL_VERK | VERL_VERK_L9 | AFW | BU_EU_VERK
| BI_EU_VERK | BI_EU_VERK_D | AFST_VERK | LAAG_INK_9 | HOOG_INK_21 | VERL_INK
| AFW_VERK | BU_EU_INK | BI_EU_INK.

Definition value (m : t) : string :=
  match m with
  | HOOG_VERK_21 => "For selling with 21% VAT."
  | LAAG_VERK_9 => "For selling with 9% VAT."
  | VERL_VERK => "For selling with reverse-charging 21% VAT."
  | VERL_VERK_L9 => "For selling with reverse-charging 9% VAT."
  | AFW => "VAT percentage is unspecified. Price values will be used"
  | BU_EU_VERK => "Deliveries outside the EU, 0% VAT."
  | BI_EU_VERK => "Goods inside the EU, 0% VAT."
  | BI_EU_VERK_D => "Services inside the EU, 0% VAT."
  | AFST_VERK => "Distance sales inside the EU, 0% VAT."
  | LAAG_INK_9 => "For buying with 9% VAT."
  | HOOG_INK_21 => "For buying with 21% VAT."
  | VERL_INK => "For buying with reverse-charging VAT."
  | AFW_VERK => "For selling with unspecified VAT percentage. Price values will be used."
  | BU_EU_INK => "For buying goods/services from outside the EU, 0% VAT."
  | BI_EU_INK => "For buying goods/services from inside the EU, 0% VAT."
  end.

Definition members : list t :=
  [HOOG_VERK_21; LAAG_VERK_9; VERL_VERK; VERL_VERK_L9; AFW; BU_EU_VERK;
   BI_EU_VERK; BI_EU_VERK_D; AFST_VERK; LAAG_INK_9; HOOG_INK_21; VERL_INK;
   AFW_VERK; BU_EU_INK; BI_EU_INK].

Definition of_value (v : string) : option t :=
  find (fun m => String.eqb (value m) v) members.
End VATCodes.

(** [DateFilterOperator(v)], with the members in the order of the class
    body. *)
Definition date_filter_operators : list DateFilterOperator.t :=
  [DateFilterOperator.EQ; DateFilterOperator.NOT_EQ; DateFilterOperator.GT;
   DateFilterOperator.GTE; DateFilterOperator.LT; DateFilterOperator.LTE;
   DateFilterOperator.RANGE].

Definition date_filter_operator_of_value (v : string) : option DateFilterOperator.t :=
  find (fun op => String.eqb (DateFilterOperator.value op) v) date_filter_operators.

(** ** Further vocabulary *)

(** A service that cannot be reached: every request fails in transport. *)
Definition unreachable : list request → request → option response :=
  fun _ _ => None.

(** A request as the accessors of client [c] send them: a GET below
    [self.api_url], with the headers [h], no JSON payload and the
    timeout of 10 seconds. *)
Definition session_get (c : client) (h : gmap string string) (rq : request) : Prop :=
  req_method rq = GET
  ∧ (∃ path, req_url rq = api_url c +:+ path)
  ∧ req_headers rq = h
  ∧ req_json rq = None
  ∧ req_timeout rq = 10.

(** The message of the [ValueError] of lines 112-114. *)
Definition credentials_error : exn :=
  ValueError "Service Account file must contain 'access_token' and 'source' fields.".

(** * Properties *)

(** Runs the monadic plumbing of a method body. *)
Ltac run :=
  unfold bind, lift, ret, raise, get_self, modify_self,
    requests_get, requests_post, requests_delete, send; simpl.

(** ** Date filter construction *)

Lemma truthy_str_false (s : option string) : truthy_str s = false ↔ unset s.
Proof.
  unfold unset. destruct s as [[|a s]|]; simpl; split; intros H; auto;
    try discriminate; destruct H; discriminate.
Qed.

Lemma truthy_str_provided (s : string) : s ≠ "" → truthy_str (Some s) = true.
Proof. destruct s; [congruence | reflexivity]. Qed.

(** C2, as the code has it: [_get_date_filter] raises, and then a
    [ValueError], exactly when the operator is absent, or the operator is
    [range] and [start_date] or [end_date] is [None] or empty, or the
    operator is another one and [start_date] is [None] or empty; in every
    other case it returns.  Without an operator the error names the
    parameter, whatever the bounds are. *)
Theorem date_filter_raises_iff (parameter : string)
    (operator : option DateFilterOperator.t) (start_date end_date : option string) :
  ((∃ msg, _get_date_filter parameter operator start_date end_date
             = Raised (ValueError msg))
     ↔ inputs_unset operator start_date end_date)
  ∧ ((∃ d, _get_date_filter parameter operator start_date end_date = Returned d)
     ↔ ¬ inputs_unset operator start_date end_date)
  ∧ _get_date_filter parameter None start_date end_date
    = Raised (ValueError ("Operator is required for date filtering on " +:+ parameter)).
Proof.
  split; [|split]; [| |reflexivity].
  - destruct operator as [op|]; simpl; [|split; eauto].
    destruct op; simpl;
      repeat match goal with
             | |- context [truthy_str ?x] =>
                 let E := fresh "E" in
                 destruct (truthy_str x) eqn:E; simpl
             end;
      rewrite <- !truthy_str_false; split;
      try (intros [msg H]; discriminate H); try tauto; eauto;
      try (intros [H|H]; congruence); try congruence.
  - destruct operator as [op|]; simpl.
    2:{ split; [intros [d H]; discriminate H | tauto]. }
    destruct op; simpl;
      repeat match goal with
             | |- context [truthy_str ?x] =>
                 let E := fresh "E" in
                 destruct (truthy_str x) eqn:E; simpl
             end;
      rewrite <- !truthy_str_false; split;
      try (intros [d H]; discriminate H); try tauto; eauto;
      try (intros _ [H|H]; congruence); try congruence;
      try (intros H; exfalso; apply H; tauto).
Qed.

(** C2 as stated fails: with the operator [eq] and [start_date=""], no
    argument is missing and the function raises all the same. *)
Lemma date_filter_raises_on_empty_start :
  ¬ ((∃ msg, _get_date_filter "date" (Some DateFilterOperator.EQ) (Some "") None
               = Raised (ValueError msg))
     ↔ inputs_not_passed (Some DateFilterOperator.EQ) (Some "") None).
Proof.
  intros [H _]. simpl in H.
  assert (Hn : Some "" = (None : option string)) by (apply H; eauto).
  discriminate Hn.
Qed.

(** C3: with the inputs its checks ask for, [_get_date_filter] returns
    the one-entry dictionary [{"{parameter}[{operator}]": value}], where
    the value is [start_date] for an operator other than [range] and
    ["{start_date},{end_date}"] for [range]. *)
Theorem date_filter_format (parameter : string) (op : DateFilterOperator.t)
    (start_date : string) (end_date : option string) :
  start_date ≠ "" →
  (op = DateFilterOperator.RANGE → ∃ e, end_date = Some e ∧ e ≠ "") →
  _get_date_filter parameter (Some op) (Some start_date) end_date
  = Returned {[ filter_key parameter op :=
                  JStr (if DateFilterOperator.eqb op DateFilterOperator.RANGE
                        then start_date +:+ "," +:+ format_str end_date
                        else start_date) ]}.
Proof.
  intros Hs He. unfold _get_date_filter, filter_key.
  rewrite (truthy_str_provided _ Hs).
  destruct op; simpl; try reflexivity.
  destruct (He eq_refl) as (e & -> & Hne).
  rewrite (truthy_str_provided _ Hne). reflexivity.
Qed.

Lemma date_filter_format_witness :
  _get_date_filter "date" (Some DateFilterOperator.GTE) (Some "2024-01-01") None
  = Returned {[ "date[gte]" := JStr "2024-01-01" ]}
  ∧ _get_date_filter "date" (Some DateFilterOperator.RANGE)
      (Some "2024-01-01") (Some "2024-12-31")
    = Returned {[ "date[range]" := JStr "2024-01-01,2024-12-31" ]}.
Proof.
  split.
  - apply (date_filter_format "date" DateFilterOperator.GTE "2024-01-01" None).
    + discriminate.
    + discriminate.
  - apply (date_filter_format "date" DateFilterOperator.RANGE "2024-01-01"
             (Some "2024-12-31")).
    + discriminate.
    + intros _. exists "2024-12-31". split; [reflexivity | discriminate].
Defined.

(** ** Header construction and the session-token check *)

Section Headers.
Context (py_str_other : json → string).
Context (server : list request → request → option response).

Lemma get_headers_falsy (c : client) :
  truthy (session_token c) = false → _get_headers py_str_other c = Raised auth_error.
Proof. intros H. unfold _get_headers. rewrite H. reflexivity. Qed.

Lemma get_headers_truthy (c : client) :
  truthy (session_token c) = true →
  _get_headers py_str_other c
  = Returned (bearer_headers (py_str py_str_other (session_token c))).
Proof. intros H. unfold _get_headers. rewrite H. reflexivity. Qed.

(** Whatever [_get_headers] raises is what an accessor raises, with the
    wire untouched. *)
Lemma fetch_headers_raise (path : string) (c : client) (w : list request) (e : exn) :
  _get_headers py_str_other c = Raised e →
  fetch py_str_other server path (State c w) = (Raised e, State c w).
Proof. intros H. unfold fetch. run. rewrite H. reflexivity. Qed.

Lemma get_relations_headers_raise (c : client) (w : list request) (e : exn) :
  _get_headers py_str_other c = Raised e →
  get_relations py_str_other server (State c w) = (Raised e, State c w).
Proof. intros H. unfold get_relations. run. rewrite H. reflexivity. Qed.

Lemma mutations_loop_headers_raise (fuel : nat) (url : string)
    (params : gmap string json) (acc : list json) (offset : Z)
    (c : client) (w : list request) (e : exn) :
  _get_headers py_str_other c = Raised e →
  mutations_loop py_str_other server (S fuel) url params acc offset (State c w)
  = (Raised e, State c w).
Proof. intros H. simpl. run. rewrite H. reflexivity. Qed.

Lemma get_mutations_headers_raise (fuel : nat) (start_date end_date : option string)
    (date_range : option DateFilterOperator.t) (p0 : gmap string json)
    (c : client) (w : list request) (e : exn) :
  initial_params start_date end_date date_range = Returned p0 →
  _get_headers py_str_other c = Raised e →
  get_mutations py_str_other server (S fuel) start_date end_date date_range (State c w)
  = (Raised e, State c w).
Proof.
  intros Hp H. unfold get_mutations, initial_params in *. run.
  destruct (truthy_str start_date || truthy_str end_date); run.
  - rewrite Hp. rewrite H. reflexivity.
  - rewrite H. reflexivity.
Qed.

Lemma get_mutations_filter_raise (fuel : nat) (start_date end_date : option string)
    (date_range : option DateFilterOperator.t) (c : client) (w : list request) (e : exn) :
  initial_params start_date end_date date_range = Raised e →
  get_mutations py_str_other server fuel start_date end_date date_range (State c w)
  = (Raised e, State c w).
Proof.
  intros Hp. unfold get_mutations, initial_params in *. run.
  destruct (truthy_str start_date || truthy_str end_date); run.
  - rewrite Hp. reflexivity.
  - discriminate Hp.
Qed.

Lemma initial_params_cases (start_date end_date : option string)
    (date_range : option DateFilterOperator.t) :
  (∃ p0, initial_params start_date end_date date_range = Returned p0)
  ∨ (∃ msg, initial_params start_date end_date date_range = Raised (ValueError msg)).
Proof.
  unfold initial_params.
  destruct (truthy_str start_date || truthy_str end_date); [|eauto].
  unfold _get_date_filter.
  destruct date_range as [op|]; [|eauto].
  destruct (DateFilterOperator.eqb op DateFilterOperator.RANGE);
    repeat match goal with
           | |- context [if ?b then _ else _] => destruct b
           end; eauto.
Qed.

Lemma invoke_headers_raise (call : resource_call) (c : client) (w : list request)
    (e : exn) :
  date_filter_ok call = true →
  _get_headers py_str_other c = Raised e →
  invoke py_str_other server call (State c w) = (Raised e, State c w).
Proof.
  intros Hok H.
  destruct call; simpl;
    try (apply fetch_headers_raise; exact H);
    try (apply get_relations_headers_raise; exact H).
  simpl in Hok.
  destruct (initial_params start_date end_date date_range) as [p0| |] eqn:Hp;
    try discriminate.
  eapply get_mutations_headers_raise; eauto.
Qed.

Lemma invoke_without_token (call : resource_call) (c : client) (w : list request) :
  truthy (session_token c) = false →
  (∃ msg, invoke py_str_other server call (State c w)
          = (Raised (ValueError msg), State c w))
  ∧ (date_filter_ok call = true →
     invoke py_str_other server call (State c w) = (Raised auth_error, State c w)).
Proof.
  intros Hf. pose proof (get_headers_falsy c Hf) as Hh. split.
  - destruct (date_filter_ok call) eqn:Hok.
    + exists "Authentication required. Call authenticate() first.".
      apply invoke_headers_raise; assumption.
    + destruct call; try discriminate Hok. simpl in Hok. simpl.
      destruct (initial_params_cases start_date end_date date_range)
        as [[p0 Hp]|[msg Hp]].
      * rewrite Hp in Hok. discriminate.
      * exists msg. apply get_mutations_filter_raise. exact Hp.
  - intros Hok. apply invoke_headers_raise; assumption.
Qed.

(** C4, as the code has it: on a client whose session token is [None]
    or otherwise falsy (the empty string), every resource accessor
    raises a [ValueError] and the wire is untouched; the error is the
    one [_get_headers] raises, unless the date arguments of
    [get_mutations] are rejected first.  On a client whose session token
    is a non-empty string, [_get_headers] returns exactly the three
    headers accept, Content-Type and Authorization: Bearer <token>. *)
Theorem headers_gate (call : resource_call) (c : client) (w : list request) :
  (truthy (session_token c) = false →
     _get_headers py_str_other c = Raised auth_error
     ∧ (∃ msg, invoke py_str_other server call (State c w)
               = (Raised (ValueError msg), State c w))
     ∧ (date_filter_ok call = true →
        invoke py_str_other server call (State c w) = (Raised auth_error, State c w)))
  ∧ (∀ tok, tok ≠ "" → session_token c = JStr tok →
       _get_headers py_str_other c = Returned (bearer_headers tok)
       ∧ dom (bearer_headers tok)
         = ({[ "accept"; "Content-Type"; "Authorization" ]} : gset string)).
Proof.
  split.
  - intros Hf. split; [exact (get_headers_falsy c Hf)|].
    exact (invoke_without_token call c w Hf).
  - intros tok Hne Htok. split.
    + rewrite get_headers_truthy.
      * rewrite Htok. reflexivity.
      * rewrite Htok. simpl. destruct tok; [congruence | reflexivity].
    + unfold bearer_headers. rewrite !dom_insert_L, dom_singleton_L. set_solver.
Qed.

End Headers.

Lemma headers_gate_witness :
  _get_headers str_other fresh = Raised auth_error
  ∧ invoke str_other (always (Response 200 (Some (JObj [])))) Invoices (State fresh [])
    = (Raised auth_error, State fresh [])
  ∧ _get_headers str_other (signed_in "abc") = Returned (bearer_headers "abc").
Proof.
  pose proof (headers_gate str_other (always (Response 200 (Some (JObj []))))
                Invoices fresh []) as [Habsent _].
  pose proof (headers_gate str_other (always (Response 200 (Some (JObj []))))
                Invoices (signed_in "abc") []) as [_ Hpresent].
  destruct (Habsent eq_refl) as (H1 & _ & H2).
  destruct (Hpresent "abc" ltac:(discriminate) eq_refl) as [H3 _].
  split; [exact H1|]. split; [exact (H2 eq_refl) | exact H3].
Defined.

(** C4 as stated fails: when the session endpoint answers 200 with the
    token [""], the client holds a session token that is a string, not
    [None], and [_get_headers] raises instead of returning headers. *)
Lemma get_headers_raises_on_empty_token :
  init (always (Response 200 (Some (JObj [("token", JStr "")]))))
    (JObj [("access_token", JStr "access"); ("source", JStr "app")]) "v1" []
  = (Returned tt, State (signed_in "") [session_post fresh])
  ∧ session_token (signed_in "") = JStr ""
  ∧ session_token (signed_in "") ≠ JNull
  ∧ _get_headers str_other (signed_in "") = Raised auth_error.
Proof. repeat split; try reflexivity. discriminate. Qed.

(** ** Authentication *)

Section Authentication.
Context (py_str_other : json → string).
Context (server : list request → request → option response).

(** Status 200: the value under ["token"] (or [None]) becomes the
    session token. *)
Lemma authenticate_200 (c : client) (w : list request) (r : response)
    (d : list (string * json)) :
  server w (session_post c) = Some r →
  status_code r = 200 →
  body r = Some (JObj d) →
  _authenticate server (State c w)
  = (Returned tt,
     State (set_session_token (default JNull (assoc "token" d)) c)
           (w ++ [session_post c])).
Proof.
  intros Hr Hs Hb. unfold _authenticate, session_post in *. run.
  rewrite Hr. rewrite Hs. simpl. unfold response_json. rewrite Hb. reflexivity.
Qed.

(** A status that [requests] counts as an error: [HTTPError] after the
    one request, the session token as it was. *)
Lemma authenticate_error_status (c : client) (w : list request) (r : response) :
  server w (session_post c) = Some r →
  400 ≤ status_code r < 600 →
  _authenticate server (State c w)
  = (Raised (HTTPError r), State c (w ++ [session_post c])).
Proof.
  intros Hr Hs. unfold _authenticate, session_post in *. run.
  rewrite Hr.
  replace (status_code r =? 200) with false by lia.
  unfold raise_for_status.
  replace ((400 <=? status_code r) && (status_code r <? 600)) with true by lia.
  reflexivity.
Qed.

(** Any other status than 200 and the error codes: [raise_for_status]
    returns, and so does [_authenticate], the session token as it was. *)
Lemma authenticate_other_status (c : client) (w : list request) (r : response) :
  server w (session_post c) = Some r →
  status_code r ≠ 200 →
  ¬ (400 ≤ status_code r < 600) →
  _authenticate server (State c w)
  = (Returned tt, State c (w ++ [session_post c])).
Proof.
  intros Hr Hs He. unfold _authenticate, session_post in *. run.
  rewrite Hr.
  replace (status_code r =? 200) with false by lia.
  unfold raise_for_status.
  replace ((400 <=? status_code r) && (status_code r <? 600)) with false by lia.
  reflexivity.
Qed.

(** C9: when the session endpoint answers 200 with a JSON object that
    has no ["token"] key, [_authenticate] returns without raising and the
    session token is [None]; every resource accessor called afterwards
    raises a [ValueError] without touching the wire, the one of
    [_get_headers] whenever its own date arguments are in order. *)
Theorem authenticate_without_token_key (c : client) (w : list request)
    (r : response) (d : list (string * json)) :
  server w (session_post c) = Some r →
  status_code r = 200 →
  body r = Some (JObj d) →
  assoc "token" d = None →
  _authenticate server (State c w)
  = (Returned tt, State (set_session_token JNull c) (w ++ [session_post c]))
  ∧ ∀ (call : resource_call) (w' : list request),
      (∃ msg, invoke py_str_other server call (State (set_session_token JNull c) w')
              = (Raised (ValueError msg), State (set_session_token JNull c) w'))
      ∧ (date_filter_ok call = true →
         invoke py_str_other server call (State (set_session_token JNull c) w')
         = (Raised auth_error, State (set_session_token JNull c) w')).
Proof.
  intros Hr Hs Hb Hd. split.
  - rewrite (authenticate_200 c w r d Hr Hs Hb). rewrite Hd. reflexivity.
  - intros call w'. apply invoke_without_token. reflexivity.
Qed.

End Authentication.

Lemma authenticate_without_token_key_witness :
  _authenticate (always (Response 200 (Some (JObj [("user", JStr "demo")]))))
    (State fresh [])
  = (Returned tt, State (set_session_token JNull fresh) [session_post fresh])
  ∧ invoke str_other (always (Response 200 (Some (JObj [("user", JStr "demo")]))))
      Ledgers (State (set_session_token JNull fresh) [session_post fresh])
    = (Raised auth_error, State (set_session_token JNull fresh) [session_post fresh]).
Proof.
  destruct (authenticate_without_token_key str_other
              (always (Response 200 (Some (JObj [("user", JStr "demo")]))))
              fresh [] (Response 200 (Some (JObj [("user", JStr "demo")])))
              [("user", JStr "demo")] eq_refl eq_refl eq_refl eq_refl)
    as [Hauth Hcalls].
  split; [exact Hauth|].
  destruct (Hcalls Ledgers [session_post fresh]) as [_ Hexact].
  exact (Hexact eq_refl).
Defined.

(** C5 at the failing input: the session endpoint answers the POST with
    201 and a token.  [__init__] returns normally, after one request,
    and the session token is still [None]: nothing is raised. *)
Theorem authenticate_201_returns :
  init (always (Response 201 (Some (JObj [("token", JStr "abc")]))))
    (JObj [("access_token", JStr "access"); ("source", JStr "app")]) "v1" []
  = (Returned tt, State fresh [session_post fresh])
  ∧ session_token fresh = JNull.
Proof. split; reflexivity. Qed.

(** ** Accessors that are not paginated *)

Section Accessors.
Context (py_str_other : json → string).
Context (server : list request → request → option response).

Lemma fetch_200 (path : string) (c : client) (w : list request)
    (h : gmap string string) (r : response) (j : json) :
  _get_headers py_str_other c = Returned h →
  server w (resource_get c h path) = Some r →
  status_code r = 200 →
  body r = Some j →
  fetch py_str_other server path (State c w)
  = (Returned j, State c (w ++ [resource_get c h path])).
Proof.
  intros Hh Hr Hs Hb. unfold fetch, resource_get in *. run.
  rewrite Hh. rewrite Hr. rewrite Hs. simpl.
  unfold response_json. rewrite Hb. reflexivity.
Qed.

Lemma fetch_error_status (path : string) (c : client) (w : list request)
    (h : gmap string string) (r : response) :
  _get_headers py_str_other c = Returned h →
  server w (resource_get c h path) = Some r →
  400 ≤ status_code r < 600 →
  fetch py_str_other server path (State c w)
  = (Raised (HTTPError r), State c (w ++ [resource_get c h path])).
Proof.
  intros Hh Hr Hs. unfold fetch, resource_get in *. run.
  rewrite Hh. rewrite Hr.
  replace (status_code r =? 200) with false by lia.
  unfold raise_for_status.
  replace ((400 <=? status_code r) && (status_code r <? 600)) with true by lia.
  reflexivity.
Qed.

(** Neither 200 nor an error code: the accessor falls through to
    [return {}]. *)
Lemma fetch_other_status (path : string) (c : client) (w : list request)
    (h : gmap string string) (r : response) :
  _get_headers py_str_other c = Returned h →
  server w (resource_get c h path) = Some r →
  status_code r ≠ 200 →
  ¬ (400 ≤ status_code r < 600) →
  fetch py_str_other server path (State c w)
  = (Returned (JObj []), State c (w ++ [resource_get c h path])).
Proof.
  intros Hh Hr Hs He. unfold fetch, resource_get in *. run.
  rewrite Hh. rewrite Hr.
  replace (status_code r =? 200) with false by lia.
  unfold raise_for_status.
  replace ((400 <=? status_code r) && (status_code r <? 600)) with false by lia.
  reflexivity.
Qed.

Lemma get_relations_200 (c : client) (w : list request)
    (h : gmap string string) (r : response) (j : json) :
  _get_headers py_str_other c = Returned h →
  server w (resource_get c h "/relation") = Some r →
  status_code r = 200 →
  body r = Some j →
  get_relations py_str_other server (State c w)
  = (Returned j, State c (w ++ [resource_get c h "/relation"])).
Proof.
  intros Hh Hr Hs Hb. unfold get_relations, resource_get in *. run.
  rewrite Hh. rewrite Hr. rewrite Hs. simpl.
  unfold response_json. rewrite Hb. reflexivity.
Qed.

Lemma get_relations_not_200 (c : client) (w : list request)
    (h : gmap string string) (r : response) :
  _get_headers py_str_other c = Returned h →
  server w (resource_get c h "/relation") = Some r →
  status_code r ≠ 200 →
  get_relations py_str_other server (State c w)
  = (Returned (JObj []), State c (w ++ [resource_get c h "/relation"])).
Proof.
  intros Hh Hr Hs. unfold get_relations, resource_get in *. run.
  rewrite Hh. rewrite Hr.
  replace (status_code r =? 200) with false by lia.
  reflexivity.
Qed.

Lemma invoke_fetch (call : resource_call) :
  paginated call = false →
  call ≠ Relations →
  invoke py_str_other server call = fetch py_str_other server (path_of call).
Proof. intros Hp Hn. destruct call; try reflexivity; [discriminate | congruence]. Qed.

(** C7, as the code has it: an accessor that is not paginated sends one
    GET.  On status 200 it returns the decoded body as it is.  On a
    status from 400 to 599 every such accessor but [get_relations]
    raises the [HTTPError] of the response.  [get_relations] returns
    the empty dictionary on every status other than 200 and raises
    nothing.  The client object is left as it was. *)
Theorem accessor_outcome (call : resource_call) (c : client) (w : list request)
    (h : gmap string string) (r : response) :
  paginated call = false →
  _get_headers py_str_other c = Returned h →
  server w (resource_get c h (path_of call)) = Some r →
  (∀ j, status_code r = 200 → body r = Some j →
     invoke py_str_other server call (State c w)
     = (Returned j, State c (w ++ [resource_get c h (path_of call)])))
  ∧ (400 ≤ status_code r < 600 → call ≠ Relations →
     invoke py_str_other server call (State c w)
     = (Raised (HTTPError r), State c (w ++ [resource_get c h (path_of call)])))
  ∧ (status_code r ≠ 200 → call = Relations →
     invoke py_str_other server call (State c w)
     = (Returned (JObj []), State c (w ++ [resource_get c h (path_of call)]))).
Proof.
  intros Hp Hh Hr. split; [|split].
  - intros j Hs Hb.
    destruct call; try discriminate Hp;
      try (rewrite invoke_fetch by (reflexivity || discriminate);
           apply (fetch_200 _ c w h r j); assumption).
    apply get_relations_200 with (r := r); assumption.
  - intros Hs Hn. rewrite (invoke_fetch call Hp Hn).
    apply fetch_error_status; assumption.
  - intros Hs ->. simpl. apply get_relations_not_200 with (r := r); assumption.
Qed.

End Accessors.

Lemma accessor_outcome_witness :
  invoke str_other (always (Response 200 (Some (JArr [JNum 7])))) Invoices
    (State (signed_in "abc") [])
  = (Returned (JArr [JNum 7]),
     State (signed_in "abc")
       [resource_get (signed_in "abc") (bearer_headers "abc") "/invoice"])
  ∧ invoke str_other (always (Response 404 None)) (Ledger "12")
      (State (signed_in "abc") [])
    = (Raised (HTTPError (Response 404 None)),
       State (signed_in "abc")
         [resource_get (signed_in "abc") (bearer_headers "abc") "/ledger/12"])
  ∧ invoke str_other (always (Response 404 None)) Relations
      (State (signed_in "abc") [])
    = (Returned (JObj []),
       State (signed_in "abc")
         [resource_get (signed_in "abc") (bearer_headers "abc") "/relation"]).
Proof.
  split; [|split].
  - destruct (accessor_outcome str_other (always (Response 200 (Some (JArr [JNum 7]))))
                Invoices (signed_in "abc") [] (bearer_headers "abc")
                (Response 200 (Some (JArr [JNum 7]))) eq_refl eq_refl eq_refl)
      as (H & _ & _).
    exact (H (JArr [JNum 7]) eq_refl eq_refl).
  - destruct (accessor_outcome str_other (always (Response 404 None))
                (Ledger "12") (signed_in "abc") [] (bearer_headers "abc")
                (Response 404 None) eq_refl eq_refl eq_refl)
      as (_ & H & _).
    apply H; [simpl; lia | discriminate].
  - destruct (accessor_outcome str_other (always (Response 404 None))
                Relations (signed_in "abc") [] (bearer_headers "abc")
                (Response 404 None) eq_refl eq_refl eq_refl)
      as (_ & _ & H).
    apply H; [discriminate | reflexivity].
Defined.

(** C7 as stated fails: when the service answers 500, [get_relations]
    returns the empty dictionary and raises nothing. *)
Lemma get_relations_swallows_500 :
  get_relations str_other (always (Response 500 None)) (State (signed_in "abc") [])
  = (Returned (JObj []),
     State (signed_in "abc")
       [resource_get (signed_in "abc") (bearer_headers "abc") "/relation"])
  ∧ ¬ ∃ e, fst (get_relations str_other (always (Response 500 None))
                  (State (signed_in "abc") [])) = Raised e.
Proof.
  split; [reflexivity|]. intros [e H]. discriminate H.
Qed.

(** ** Closing the session *)

Section Close.
Context (py_str_other : json → string).
Context (server : list request → request → option response).

(** C8: once the DELETE is answered, [close] never raises.  On 204 it
    returns [True] and the session token is [None]; on any other status
    it returns [False] and the client, session token included, is as it
    was, so that a further [close] sends the DELETE again. *)
Theorem close_reports (c : client) (w : list request)
    (h : gmap string string) (r : response) :
  _get_headers py_str_other c = Returned h →
  server w (session_delete c h) = Some r →
  (status_code r = 204 →
     close py_str_other server (State c w)
     = (Returned true, State (set_session_token JNull c) (w ++ [session_delete c h]))
     ∧ session_token (set_session_token JNull c) = JNull)
  ∧ (status_code r ≠ 204 →
     close py_str_other server (State c w)
     = (Returned false, State c (w ++ [session_delete c h]))
     ∧ ∀ r', server (w ++ [session_delete c h]) (session_delete c h) = Some r' →
         sent (snd (close py_str_other server (State c (w ++ [session_delete c h]))))
         = w ++ [session_delete c h; session_delete c h]).
Proof.
  intros Hh Hr. split.
  - intros Hs. split; [|reflexivity].
    unfold close, session_delete in *. run.
    rewrite Hh. rewrite Hr. rewrite Hs. reflexivity.
  - intros Hs. split.
    + unfold close, session_delete in *. run.
      rewrite Hh. rewrite Hr.
      replace (status_code r =? 204) with false by lia. reflexivity.
    + intros r' Hr'. unfold close, session_delete in *. run.
      rewrite Hh. rewrite Hr'. rewrite <- app_assoc. simpl.
      destruct (status_code r' =? 204); reflexivity.
Qed.

Lemma close_headers_raise (c : client) (w : list request) (e : exn) :
  _get_headers py_str_other c = Raised e →
  close py_str_other server (State c w) = (Raised e, State c w).
Proof. intros H. unfold close. run. rewrite H. reflexivity. Qed.

(** C10: on a client whose session token is [None], [close] raises the
    [ValueError] of [_get_headers] and sends nothing; this is also what
    a second [close] does after one that was answered 204. *)
Theorem close_without_token (c : client) (w : list request) :
  session_token c = JNull →
  close py_str_other server (State c w) = (Raised auth_error, State c w)
  ∧ ∀ c0 w0 st,
      close py_str_other server (State c0 w0) = (Returned true, st) →
      close py_str_other server st = (Raised auth_error, st).
Proof.
  intros Hc. split.
  - apply close_headers_raise. apply get_headers_falsy. rewrite Hc. reflexivity.
  - intros c0 w0 st. unfold close at 1. run.
    destruct (_get_headers py_str_other c0) as [h| |]; try discriminate.
    destruct (server w0 _) as [r|]; try discriminate.
    destruct (status_code r =? 204); intros H; inversion H; subst.
    apply close_headers_raise. apply get_headers_falsy. reflexivity.
Qed.

End Close.

Lemma close_reports_witness :
  close str_other (always (Response 204 None)) (State (signed_in "abc") [])
  = (Returned true,
     State (set_session_token JNull (signed_in "abc"))
       [session_delete (signed_in "abc") (bearer_headers "abc")])
  ∧ close str_other (always (Response 500 None)) (State (signed_in "abc") [])
    = (Returned false,
       State (signed_in "abc")
         [session_delete (signed_in "abc") (bearer_headers "abc")]).
Proof.
  split.
  - destruct (close_reports str_other (always (Response 204 None))
                (signed_in "abc") [] (bearer_headers "abc") (Response 204 None)
                eq_refl eq_refl) as [H _].
    destruct (H eq_refl) as [H1 _]. exact H1.
  - destruct (close_reports str_other (always (Response 500 None))
                (signed_in "abc") [] (bearer_headers "abc") (Response 500 None)
                eq_refl eq_refl) as [_ H].
    destruct (H ltac:(discriminate)) as [H1 _]. exact H1.
Defined.

Lemma close_without_token_witness :
  close str_other (always (Response 204 None)) (State fresh [])
  = (Raised auth_error, State fresh []).
Proof.
  destruct (close_without_token str_other (always (Response 204 None)) fresh []
              eq_refl) as [H _].
  exact H.
Defined.

(** ** Paginated retrieval *)

(** Writing [offset] and [limit] again overwrites the earlier pair: the
    dictionary of the [k]-th pass depends on the first one only. *)
Lemma page_params_again (params : gmap string json) (o1 o2 : Z) :
  page_params (page_params params o1) o2 = page_params params o2.
Proof.
  unfold page_params. apply map_eq. intros key.
  destruct (decide (key = "limit")) as [->|Hl].
  - by rewrite !lookup_insert_eq.
  - rewrite !(lookup_insert_ne _ "limit") by done.
    destruct (decide (key = "offset")) as [->|Ho].
    + by rewrite !lookup_insert_eq.
    + repeat (rewrite lookup_insert_ne by done). reflexivity.
Qed.

Lemma page_request_offset (c : client) (h : gmap string string)
    (p0 : gmap string json) (k : nat) :
  req_params (page_request c h p0 k) ≫= (λ p, p !! "offset")
  = Some (JNum (PAGE_LIMIT * Z.of_nat k)).
Proof.
  unfold page_request, page_params. simpl.
  rewrite lookup_insert_ne by done. by rewrite lookup_insert_eq.
Qed.

Lemma offsets_page_requests (c : client) (h : gmap string string)
    (p0 : gmap string json) (ks : list nat) :
  offsets (map (page_request c h p0) ks)
  = map (λ k, Some (JNum (PAGE_LIMIT * Z.of_nat k))) ks.
Proof.
  unfold offsets. induction ks as [|k ks IH]; [reflexivity|].
  simpl. f_equal; [apply (page_request_offset c h p0 k) | exact IH].
Qed.

(** What the scripted service answers to the page requests of a client
    that starts on an empty wire. *)
Lemma scripted_pages (c : client) (h : gmap string string) (p0 : gmap string json)
    (pages : list (list json)) (i : nat) (items : list json) :
  pages !! i = Some items →
  scripted (map page_response pages)
    ([] ++ map (page_request c h p0) (seq 0 i)) (page_request c h p0 i)
  = Some (page_response items).
Proof.
  intros H. unfold scripted. simpl.
  rewrite length_map, length_seq.
  change (map page_response pages) with (page_response <$> pages).
  rewrite list_lookup_fmap, H. reflexivity.
Qed.

Section Pagination.
Context (py_str_other : json → string).
Context (server : list request → request → option response).

(** The loop, entered for its [k]-th pass with [pages] still to come. *)
Lemma mutations_loop_pages (c : client) (h : gmap string string)
    (p0 : gmap string json) (pages : list (list json)) :
  _get_headers py_str_other c = Returned h →
  Forall (λ p, p ≠ []) pages →
  ∀ (fuel : nat) (w : list request) (params : gmap string json)
    (acc : list json) (k : nat),
    (∀ o, page_params params o = page_params p0 o) →
    (∀ i items, (pages ++ [[]]) !! i = Some items →
       server (w ++ map (page_request c h p0) (seq k i)) (page_request c h p0 (k + i))
       = Some (page_response items)) →
    (length pages < fuel)%nat →
    mutations_loop py_str_other server fuel (api_url c +:+ "/mutation") params acc
      (PAGE_LIMIT * Z.of_nat k) (State c w)
    = (Returned (acc ++ concat pages),
       State c (w ++ map (page_request c h p0) (seq k (S (length pages))))).
Proof.
  intros Hh Hne. induction Hne as [|pg rest Hpg Hrest IH];
    intros fuel w params acc k Hparams Hsrv Hfuel.
  - destruct fuel as [|fuel]; [simpl in Hfuel; lia|].
    specialize (Hsrv 0%nat [] eq_refl). simpl in Hsrv.
    rewrite app_nil_r, Nat.add_0_r in Hsrv.
    simpl. run. rewrite Hh. rewrite Hparams.
    unfold page_request in Hsrv. rewrite Hsrv. simpl.
    rewrite app_nil_r. reflexivity.
  - destruct fuel as [|fuel]; [simpl in Hfuel; lia|].
    pose proof (Hsrv 0%nat pg eq_refl) as H0. simpl in H0.
    rewrite app_nil_r, Nat.add_0_r in H0.
    simpl mutations_loop. run. rewrite Hh. rewrite Hparams.
    unfold page_request in H0. rewrite H0. simpl.
    destruct pg as [|x pg]; [congruence|].
    replace (PAGE_LIMIT * Z.of_nat k + PAGE_LIMIT)
      with (PAGE_LIMIT * Z.of_nat (S k)) by lia.
    change (negb true) with false. cbv beta iota.
    change (Request GET (api_url c +:+ "/mutation") h
              (Some (page_params p0 (PAGE_LIMIT * Z.of_nat k))) None 10)
      with (page_request c h p0 k).
    rewrite (IH fuel (w ++ [page_request c h p0 k])
               (page_params p0 (PAGE_LIMIT * Z.of_nat k)) (acc ++ x :: pg) (S k)).
    + simpl. rewrite <- !app_assoc. reflexivity.
    + intros o. apply page_params_again.
    + intros i items Hi. rewrite <- app_assoc. simpl.
      replace (S (k + i))%nat with (k + S i)%nat by lia.
      apply (Hsrv (S i)). exact Hi.
    + simpl in Hfuel. lia.
Qed.

(** C1: when the service answers the successive page requests with
    status 200 and the non-empty pages [pages], then with an empty page,
    [get_mutations] (with fuel for one pass per page) returns
    [{"items": ...}] holding the concatenation of the pages in order; it
    sends one request per page, the empty one included, and no other,
    with offsets 0, 100, 200, ... *)
Theorem get_mutations_pages (c : client) (w : list request)
    (h : gmap string string) (p0 : gmap string json) (pages : list (list json))
    (fuel : nat) (start_date end_date : option string)
    (date_range : option DateFilterOperator.t) :
  _get_headers py_str_other c = Returned h →
  initial_params start_date end_date date_range = Returned p0 →
  Forall (λ p, p ≠ []) pages →
  (∀ i items, (pages ++ [[]]) !! i = Some items →
     server (w ++ map (page_request c h p0) (seq 0 i)) (page_request c h p0 i)
     = Some (page_response items)) →
  (length pages < fuel)%nat →
  get_mutations py_str_other server fuel start_date end_date date_range (State c w)
  = (Returned (JObj [("items", JArr (concat pages))]),
     State c (w ++ map (page_request c h p0) (seq 0 (S (length pages)))))
  ∧ offsets (map (page_request c h p0) (seq 0 (S (length pages))))
    = map (λ k, Some (JNum (PAGE_LIMIT * Z.of_nat k))) (seq 0 (S (length pages))).
Proof.
  intros Hh Hp Hne Hsrv Hfuel. split; [|apply offsets_page_requests].
  pose proof (mutations_loop_pages c h p0 pages Hh Hne fuel w p0 [] 0%nat
                (λ o, eq_refl) Hsrv Hfuel) as Hloop.
  change (PAGE_LIMIT * Z.of_nat 0) with 0 in Hloop.
  unfold get_mutations, initial_params in *.
  destruct (truthy_str start_date || truthy_str end_date).
  - unfold bind at 1. unfold get_self. unfold bind at 1. unfold lift at 1.
    rewrite Hp. unfold bind at 1. cbv beta.
    change (self (State c w)) with c. rewrite Hloop. reflexivity.
  - injection Hp as <-.
    unfold bind at 1. unfold get_self. unfold bind at 1. unfold ret at 1.
    unfold bind at 1. cbv beta.
    change (self (State c w)) with c. rewrite Hloop. reflexivity.
Qed.

(** A status that [requests] counts as an error, on any pass: the
    [HTTPError] is raised at once, nothing is returned. *)
Lemma mutations_loop_error_status (fuel : nat) (c : client) (w : list request)
    (h : gmap string string) (params : gmap string json) (acc : list json)
    (offset : Z) (r : response) :
  _get_headers py_str_other c = Returned h →
  server w (Request GET (api_url c +:+ "/mutation") h
              (Some (page_params params offset)) None 10) = Some r →
  400 ≤ status_code r < 600 →
  mutations_loop py_str_other server (S fuel) (api_url c +:+ "/mutation")
    params acc offset (State c w)
  = (Raised (HTTPError r),
     State c (w ++ [Request GET (api_url c +:+ "/mutation") h
                      (Some (page_params params offset)) None 10])).
Proof.
  intros Hh Hr Hs. simpl. run. rewrite Hh. rewrite Hr.
  replace (status_code r =? 200) with false by lia.
  unfold raise_for_status.
  replace ((400 <=? status_code r) && (status_code r <? 600)) with true by lia.
  reflexivity.
Qed.

End Pagination.

Lemma get_mutations_pages_witness :
  (∃ items,
     get_mutations str_other (scripted (map page_response (three_pages ++ [[]])))
       4 None None None (State (signed_in "abc") [])
     = (Returned (JObj [("items", JArr items)]),
        State (signed_in "abc")
          (map (page_request (signed_in "abc") (bearer_headers "abc") ∅)
             [0; 1; 2; 3]%nat))
     ∧ length items = 237%nat
     ∧ offsets (map (page_request (signed_in "abc") (bearer_headers "abc") ∅)
                  [0; 1; 2; 3]%nat)
       = [Some (JNum 0); Some (JNum 100); Some (JNum 200); Some (JNum 300)])
  ∧ get_mutations str_other (scripted (map page_response ([] ++ [[]])))
      1 None None None (State (signed_in "abc") [])
    = (Returned (JObj [("items", JArr [])]),
       State (signed_in "abc")
         [page_request (signed_in "abc") (bearer_headers "abc") ∅ 0]).
Proof.
  split.
  - exists (concat three_pages).
    destruct (get_mutations_pages str_other
                (scripted (map page_response (three_pages ++ [[]])))
                (signed_in "abc") [] (bearer_headers "abc") ∅ three_pages 4
                None None None eq_refl eq_refl) as [Hrun Hoff].
    + unfold three_pages. repeat constructor; discriminate.
    + intros i items Hi. apply scripted_pages. exact Hi.
    + simpl. lia.
    + split; [exact Hrun|]. split; [reflexivity | exact Hoff].
  - destruct (get_mutations_pages str_other
                (scripted (map page_response ([] ++ [[]])))
                (signed_in "abc") [] (bearer_headers "abc") ∅ [] 1
                None None None eq_refl eq_refl) as [Hrun _].
    + constructor.
    + intros i items Hi. apply scripted_pages. exact Hi.
    + simpl. lia.
    + exact Hrun.
Defined.

(** C6 at the failing input: the first page request is answered with
    204, the next with an empty page.  [raise_for_status] raises
    nothing for 204, the loop goes round and sends the same request
    again, and [get_mutations] returns normally after two requests. *)
Theorem get_mutations_204_retries :
  get_mutations str_other (scripted [Response 204 None; page_response []])
    2 None None None (State (signed_in "abc") [])
  = (Returned (JObj [("items", JArr [])]),
     State (signed_in "abc")
       [page_request (signed_in "abc") (bearer_headers "abc") ∅ 0;
        page_request (signed_in "abc") (bearer_headers "abc") ∅ 0]).
Proof. vm_compute. reflexivity. Qed.

(** Against a service that answers every page request with 204 the
    loop never ends: whatever the fuel, it is used up, one request per
    unit, and nothing is raised. *)
Lemma mutations_loop_204_forever (fuel : nat) (c : client) (h : gmap string string) :
  _get_headers str_other c = Returned h →
  ∀ (url : string) (params : gmap string json) (acc : list json) (offset : Z)
    (w : list request),
    ∃ w', mutations_loop str_other (always (Response 204 None)) fuel url params
            acc offset (State c w)
          = (OutOfFuel, State c (w ++ w'))
          ∧ length w' = fuel.
Proof.
  intros Hh. induction fuel as [|fuel IH]; intros url params acc offset w.
  - exists []. rewrite app_nil_r. split; reflexivity.
  - simpl. run. rewrite Hh. simpl.
    destruct (IH url (page_params params offset) acc offset
                (w ++ [Request GET url h (Some (page_params params offset)) None 10]))
      as (w' & Hrun & Hlen).
    rewrite Hrun.
    exists (Request GET url h (Some (page_params params offset)) None 10 :: w').
    rewrite <- app_assoc. simpl. split; [reflexivity | congruence].
Qed.

(** * Further properties of the code *)

(** ** The enumerations *)

(** X1: no two members of [DateFilterOperator] share a value, a member
    is found again from its value, and no two operators give the same
    query key for a parameter. *)
Theorem date_filter_operator_values (a b : DateFilterOperator.t) (parameter : string) :
  (DateFilterOperator.value a = DateFilterOperator.value b ↔ a = b)
  ∧ date_filter_operator_of_value (DateFilterOperator.value a) = Some a
  ∧ (filter_key parameter a = filter_key parameter b ↔ a = b).
Proof.
  assert (Hinj : DateFilterOperator.value a = DateFilterOperator.value b → a = b)
    by (destruct a, b; simpl; intros H; try reflexivity; discriminate H).
  split; [|split].
  - split; [exact Hinj | intros ->; reflexivity].
  - destruct a; reflexivity.
  - split; [|intros ->; reflexivity].
    unfold filter_key. intros H.
    induction parameter as [|ch parameter IH]; simpl in H.
    + destruct a, b; try reflexivity; discriminate H.
    + injection H as H. exact (IH H).
Qed.


(** ** Date arguments *)

(** X3: an operator other than [range] ignores [end_date]: the result,
    error or dictionary, is the same whatever is passed for it. *)
Theorem date_filter_ignores_end (parameter : string) (op : DateFilterOperator.t)
    (start_date end_date end_date' : option string) :
  op ≠ DateFilterOperator.RANGE →
  _get_date_filter parameter (Some op) start_date end_date
  = _get_date_filter parameter (Some op) start_date end_date'.
Proof.
  intros Hop. unfold _get_date_filter.
  destruct op; try reflexivity. congruence.
Qed.

Lemma date_filter_ignores_end_witness :
  _get_date_filter "date" (Some DateFilterOperator.LT) (Some "2024-06-01") None
  = _get_date_filter "date" (Some DateFilterOperator.LT) (Some "2024-06-01")
      (Some "2024-12-31").
Proof.
  apply (date_filter_ignores_end "date" DateFilterOperator.LT
           (Some "2024-06-01") None (Some "2024-12-31")).
  discriminate.
Defined.

Section DateArguments.
Context (py_str_other : json → string).
Context (server : list request → request → option response).

(** X4: when neither [start_date] nor [end_date] is given (each is
    [None] or empty), [get_mutations] builds no filter at all: the
    operator passed as [date_range] is ignored and the call is the
    unfiltered one. *)
Theorem get_mutations_without_dates (fuel : nat) (start_date end_date : option string)
    (date_range : option DateFilterOperator.t) (st : state) :
  truthy_str start_date = false →
  truthy_str end_date = false →
  get_mutations py_str_other server fuel start_date end_date date_range st
  = get_mutations py_str_other server fuel None None None st.
Proof.
  intros Hs He. unfold get_mutations. rewrite Hs, He. reflexivity.
Qed.

(** X5: date arguments that [_get_date_filter] rejects stop
    [get_mutations] before the loop, whatever the session token is: a
    date without an operator, and an [end_date] alone with an operator
    other than [range], raise the [ValueError] of the filter and nothing
    is sent. *)
Theorem get_mutations_rejects_dates (fuel : nat) (start_date end_date : option string)
    (op : DateFilterOperator.t) (c : client) (w : list request) :
  (truthy_str start_date || truthy_str end_date = true →
   get_mutations py_str_other server fuel start_date end_date None (State c w)
   = (Raised (ValueError "Operator is required for date filtering on date"),
      State c w))
  ∧ (truthy_str start_date = false → truthy_str end_date = true →
     op ≠ DateFilterOperator.RANGE →
     get_mutations py_str_other server fuel start_date end_date (Some op) (State c w)
     = (Raised (ValueError ("Operator " +:+ DateFilterOperator.value op
                              +:+ " requires a start_date value")),
        State c w))
  ∧ (truthy_str start_date = false → truthy_str end_date = true →
     get_mutations py_str_other server fuel start_date end_date
       (Some DateFilterOperator.RANGE) (State c w)
     = (Raised (ValueError "Range operator requires both start_date and end_date"),
        State c w)).
Proof.
  split; [|split].
  - intros H. apply get_mutations_filter_raise.
    unfold initial_params. rewrite H. reflexivity.
  - intros Hs He Hop. apply get_mutations_filter_raise.
    unfold initial_params, _get_date_filter. rewrite Hs, He. simpl.
    destruct op; try reflexivity. congruence.
  - intros Hs He. apply get_mutations_filter_raise.
    unfold initial_params, _get_date_filter. rewrite Hs, He. reflexivity.
Qed.

End DateArguments.

Lemma get_mutations_without_dates_witness :
  get_mutations str_other (always (page_response [])) 3 (Some "") None
    (Some DateFilterOperator.GT) (State (signed_in "abc") [])
  = get_mutations str_other (always (page_response [])) 3 None None None
      (State (signed_in "abc") []).
Proof.
  apply (get_mutations_without_dates str_other (always (page_response [])) 3
           (Some "") None (Some DateFilterOperator.GT) (State (signed_in "abc") []));
    reflexivity.
Defined.

Lemma get_mutations_rejects_dates_witness :
  get_mutations str_other (always (page_response [])) 3 (Some "2024-01-01") None None
    (State (signed_in "abc") [])
  = (Raised (ValueError "Operator is required for date filtering on date"),
     State (signed_in "abc") [])
  ∧ get_mutations str_other (always (page_response [])) 3 None (Some "2024-12-31")
      (Some DateFilterOperator.LTE) (State (signed_in "abc") [])
    = (Raised (ValueError "Operator lte requires a start_date value"),
       State (signed_in "abc") [])
  ∧ get_mutations str_other (always (page_response [])) 3 None (Some "2024-12-31")
      (Some DateFilterOperator.RANGE) (State (signed_in "abc") [])
    = (Raised (ValueError "Range operator requires both start_date and end_date"),
       State (signed_in "abc") []).
Proof.
  split; [|split].
  - destruct (get_mutations_rejects_dates str_other (always (page_response [])) 3
                (Some "2024-01-01") None DateFilterOperator.EQ (signed_in "abc") [])
      as (H & _ & _).
    exact (H eq_refl).
  - destruct (get_mutations_rejects_dates str_other (always (page_response [])) 3
                None (Some "2024-12-31") DateFilterOperator.LTE (signed_in "abc") [])
      as (_ & H & _).
    apply H; [reflexivity | reflexivity | discriminate].
  - destruct (get_mutations_rejects_dates str_other (always (page_response [])) 3
                None (Some "2024-12-31") DateFilterOperator.EQ (signed_in "abc") [])
      as (_ & _ & H).
    apply H; reflexivity.
Defined.

(** ** Construction of the client *)

Section Construction.
Context (server : list request → request → option response).

Lemma parse_credentials_ok (d : list (string * json)) (c : client) (w : list request) :
  truthy (default JNull (assoc "access_token" d)) = true →
  truthy (default JNull (assoc "source" d)) = true →
  _parse_service_account_file (JObj d) (State c w)
  = (Returned tt,
     State (set_credentials (default JNull (assoc "access_token" d))
              (default JNull (assoc "source" d)) c) w).
Proof.
  intros Ha Hs. unfold _parse_service_account_file. run.
  rewrite Ha. simpl. rewrite Hs. reflexivity.
Qed.

(** X6: [__init__] sends nothing and raises when the decoded credentials
    are an object in which ["access_token"] or ["source"] is missing,
    null or empty (a [ValueError]), or are not an object at all (an
    [AttributeError]): [_authenticate] is not reached. *)
Theorem init_rejects_credentials (d : list (string * json)) (data : json)
    (version : string) (w : list request) :
  (truthy (default JNull (assoc "access_token" d)) = false
   ∨ truthy (default JNull (assoc "source" d)) = false →
   init server (JObj d) version w
   = (Raised credentials_error, State (new_client version) w))
  ∧ ((∀ d', data ≠ JObj d') →
     init server data version w
     = (Raised AttributeError, State (new_client version) w)).
Proof.
  split.
  - intros H. unfold init, _parse_service_account_file. run.
    destruct (truthy (default JNull (assoc "access_token" d))) eqn:Ha; simpl;
      [|reflexivity].
    destruct H as [H|H]; [discriminate|]. rewrite H. reflexivity.
  - intros H. destruct data; try reflexivity. exfalso. exact (H d0 eq_refl).
Qed.

(** X7: with an ["access_token"] and a ["source"] that are not empty,
    [__init__] sends exactly one request, the POST to
    [BASE_URL/version/session] whose JSON payload holds the two values
    and whose headers hold no [Authorization]; when the answer is 200
    with a JSON object, the client ends up with the credentials, the
    value under ["token"] as its session token, and nothing else sent. *)
Theorem init_authenticates (d b : list (string * json)) (version : string)
    (w : list request) (r : response) :
  truthy (default JNull (assoc "access_token" d)) = true →
  truthy (default JNull (assoc "source" d)) = true →
  server w (session_post (set_credentials (default JNull (assoc "access_token" d))
                            (default JNull (assoc "source" d))
                            (new_client version))) = Some r →
  status_code r = 200 →
  body r = Some (JObj b) →
  ∃ rq,
    init server (JObj d) version w
    = (Returned tt,
       State (set_session_token (default JNull (assoc "token" b))
                (set_credentials (default JNull (assoc "access_token" d))
                   (default JNull (assoc "source" d)) (new_client version)))
             (w ++ [rq]))
    ∧ req_method rq = POST
    ∧ req_url rq = BASE_URL +:+ "/" +:+ version +:+ "/session"
    ∧ req_json rq = Some (JObj [("accessToken", default JNull (assoc "access_token" d));
                                ("source", default JNull (assoc "source" d))])
    ∧ req_headers rq !! "Authorization" = None.
Proof.
  intros Ha Hs Hr Hst Hb.
  exists (session_post (set_credentials (default JNull (assoc "access_token" d))
                          (default JNull (assoc "source" d)) (new_client version))).
  split; [|repeat split].
  unfold init. unfold bind at 1.
  rewrite (parse_credentials_ok d (new_client version) w Ha Hs).
  apply (authenticate_200 server _ w r b); assumption.
Qed.

(** X8: with good credentials, an answer to the POST with a status from
    400 to 599 makes [__init__] raise the [HTTPError] of the response
    after that one request; no client is handed out. *)
Theorem init_http_error (d : list (string * json)) (version : string)
    (w : list request) (r : response) :
  truthy (default JNull (assoc "access_token" d)) = true →
  truthy (default JNull (assoc "source" d)) = true →
  server w (session_post (set_credentials (default JNull (assoc "access_token" d))
                            (default JNull (assoc "source" d))
                            (new_client version))) = Some r →
  400 ≤ status_code r < 600 →
  init server (JObj d) version w
  = (Raised (HTTPError r),
     State (set_credentials (default JNull (assoc "access_token" d))
              (default JNull (assoc "source" d)) (new_client version))
           (w ++ [session_post (set_credentials
                                  (default JNull (assoc "access_token" d))
                                  (default JNull (assoc "source" d))
                                  (new_client version))])).
Proof.
  intros Ha Hs Hr Hst. unfold init. unfold bind at 1.
  rewrite (parse_credentials_ok d (new_client version) w Ha Hs).
  apply (authenticate_error_status server _ w r); assumption.
Qed.

(** X9: a 200 answer to the POST whose body does not decode, or decodes
    to something that is not an object, makes [_authenticate] raise
    ([JSONDecodeError], [AttributeError]); the session token the client
    held, if any, stays. *)
Theorem authenticate_bad_body (c : client) (w : list request) (r : response) :
  server w (session_post c) = Some r →
  status_code r = 200 →
  (body r = None →
   _authenticate server (State c w)
   = (Raised JSONDecodeError, State c (w ++ [session_post c])))
  ∧ (∀ j, body r = Some j → (∀ b, j ≠ JObj b) →
     _authenticate server (State c w)
     = (Raised AttributeError, State c (w ++ [session_post c]))).
Proof.
  intros Hr Hs. split.
  - intros Hb. unfold _authenticate, session_post in *. run.
    rewrite Hr, Hs. simpl. unfold response_json. rewrite Hb. reflexivity.
  - intros j Hb Hj. unfold _authenticate, session_post in *. run.
    rewrite Hr, Hs. simpl. unfold response_json. rewrite Hb.
    destruct j; try reflexivity. exfalso. exact (Hj d eq_refl).
Qed.

(** X10: when the transport fails (no response), [_authenticate] raises
    the exception of [requests]; the request counts as sent and the
    client is as it was. *)
Theorem authenticate_transport_failure (c : client) (w : list request) :
  server w (session_post c) = None →
  _authenticate server (State c w)
  = (Raised RequestException, State c (w ++ [session_post c])).
Proof.
  intros Hr. unfold _authenticate, session_post in *. run.
  rewrite Hr. reflexivity.
Qed.

End Construction.

Lemma init_rejects_credentials_witness :
  init (always (Response 200 (Some (JObj [("token", JStr "abc")]))))
    (JObj [("access_token", JStr "access"); ("source", JStr "")]) "v1" []
  = (Raised credentials_error, State (new_client "v1") [])
  ∧ init (always (Response 200 (Some (JObj [("token", JStr "abc")]))))
      (JArr [JStr "access"; JStr "app"]) "v1" []
    = (Raised AttributeError, State (new_client "v1") []).
Proof.
  destruct (init_rejects_credentials
              (always (Response 200 (Some (JObj [("token", JStr "abc")]))))
              [("access_token", JStr "access"); ("source", JStr "")]
              (JArr [JStr "access"; JStr "app"]) "v1" [])
    as [H1 H2].
  split.
  - apply H1. right. reflexivity.
  - apply H2. discriminate.
Defined.

Lemma init_authenticates_witness :
  ∃ rq,
    init (always (Response 200 (Some (JObj [("token", JStr "abc")]))))
      (JObj [("access_token", JStr "access"); ("source", JStr "app")]) "v1" []
    = (Returned tt, State (signed_in "abc") [rq])
    ∧ req_method rq = POST
    ∧ req_url rq = "https://api.e-boekhouden.nl/v1/session"
    ∧ req_json rq = Some (JObj [("accessToken", JStr "access"); ("source", JStr "app")])
    ∧ req_headers rq !! "Authorization" = None.
Proof.
  exact (init_authenticates
           (always (Response 200 (Some (JObj [("token", JStr "abc")]))))
           [("access_token", JStr "access"); ("source", JStr "app")]
           [("token", JStr "abc")] "v1" []
           (Response 200 (Some (JObj [("token", JStr "abc")])))
           eq_refl eq_refl eq_refl eq_refl eq_refl).
Defined.

Lemma init_http_error_witness :
  init (always (Response 401 None))
    (JObj [("access_token", JStr "access"); ("source", JStr "app")]) "v1" []
  = (Raised (HTTPError (Response 401 None)), State fresh [session_post fresh]).
Proof.
  apply (init_http_error (always (Response 401 None))
           [("access_token", JStr "access"); ("source", JStr "app")] "v1" []
           (Response 401 None) eq_refl eq_refl eq_refl).
  simpl. lia.
Defined.

Lemma authenticate_bad_body_witness :
  _authenticate (always (Response 200 None)) (State (signed_in "old") [])
  = (Raised JSONDecodeError, State (signed_in "old") [session_post (signed_in "old")])
  ∧ _authenticate (always (Response 200 (Some (JArr [])))) (State (signed_in "old") [])
    = (Raised AttributeError, State (signed_in "old") [session_post (signed_in "old")]).
Proof.
  split.
  - destruct (authenticate_bad_body (always (Response 200 None)) (signed_in "old") []
                (Response 200 None) eq_refl eq_refl) as [H _].
    exact (H eq_refl).
  - destruct (authenticate_bad_body (always (Response 200 (Some (JArr []))))
                (signed_in "old") [] (Response 200 (Some (JArr []))) eq_refl eq_refl)
      as [_ H].
    apply (H (JArr [])); [reflexivity | discriminate].
Defined.

Lemma authenticate_transport_failure_witness :
  _authenticate unreachable (State fresh [])
  = (Raised RequestException, State fresh [session_post fresh]).
Proof.
  exact (authenticate_transport_failure unreachable fresh [] eq_refl).
Defined.

(** ** Accessors: what is sent and what comes back *)

Section AccessorEdges.
Context (py_str_other : json → string).
Context (server : list request → request → option response).

Lemma fetch_wire (path : string) (c : client) (w : list request)
    (h : gmap string string) :
  _get_headers py_str_other c = Returned h →
  snd (fetch py_str_other server path (State c w))
  = State c (w ++ [resource_get c h path]).
Proof.
  intros Hh. unfold fetch, resource_get. run. rewrite Hh.
  destruct (server w _) as [r|]; [|reflexivity].
  destruct (status_code r =? 200).
  - unfold response_json. destruct (body r); reflexivity.
  - unfold raise_for_status.
    destruct ((400 <=? status_code r) && (status_code r <? 600)); reflexivity.
Qed.

Lemma get_relations_wire (c : client) (w : list request) (h : gmap string string) :
  _get_headers py_str_other c = Returned h →
  snd (get_relations py_str_other server (State c w))
  = State c (w ++ [resource_get c h "/relation"]).
Proof.
  intros Hh. unfold get_relations, resource_get. run. rewrite Hh.
  destruct (server w _) as [r|]; [|reflexivity].
  destruct (status_code r =? 200); [|reflexivity].
  unfold response_json. destruct (body r); reflexivity.
Qed.

Lemma accessor_single_request_aux (call : resource_call) (c : client)
    (w : list request) :
  paginated call = false →
  ∀ h, _get_headers py_str_other c = Returned h →
  snd (invoke py_str_other server call (State c w))
  = State c (w ++ [resource_get c h (path_of call)]).
Proof.
  intros Hp h Hh.
  destruct call; try discriminate Hp;
    try (rewrite invoke_fetch by (reflexivity || discriminate);
         apply fetch_wire; exact Hh).
  apply get_relations_wire. exact Hh.
Qed.

(** X11: on a client with a session token, an accessor that is not
    paginated sends exactly one request, the GET of its path with the
    session headers, and leaves the client as it was, whatever the
    service answers and also when the transport fails: nothing is ever
    sent a second time. *)
Theorem accessor_single_request (call : resource_call) (c : client)
    (w : list request) (h : gmap string string) :
  paginated call = false →
  _get_headers py_str_other c = Returned h →
  snd (invoke py_str_other server call (State c w))
  = State c (w ++ [resource_get c h (path_of call)]).
Proof.
  intros Hp Hh. exact (accessor_single_request_aux call c w Hp h Hh).
Qed.

(** X12: an answer whose status is neither 200 nor from 400 to 599 (a
    204, a 304) makes every accessor that is not paginated return the
    empty dictionary, without an error. *)
Theorem accessor_other_status (call : resource_call) (c : client)
    (w : list request) (h : gmap string string) (r : response) :
  paginated call = false →
  _get_headers py_str_other c = Returned h →
  server w (resource_get c h (path_of call)) = Some r →
  status_code r ≠ 200 →
  ¬ (400 ≤ status_code r < 600) →
  invoke py_str_other server call (State c w)
  = (Returned (JObj []), State c (w ++ [resource_get c h (path_of call)])).
Proof.
  intros Hp Hh Hr Hs He.
  destruct call; try discriminate Hp;
    try (rewrite invoke_fetch by (reflexivity || discriminate);
         apply (fetch_other_status py_str_other server _ c w h r); assumption).
  apply (get_relations_not_200 py_str_other server c w h r); assumption.
Qed.

(** X13: a 200 answer whose body does not decode as JSON makes every
    accessor that is not paginated raise [JSONDecodeError]. *)
Theorem accessor_undecodable_body (call : resource_call) (c : client)
    (w : list request) (h : gmap string string) (r : response) :
  paginated call = false →
  _get_headers py_str_other c = Returned h →
  server w (resource_get c h (path_of call)) = Some r →
  status_code r = 200 →
  body r = None →
  invoke py_str_other server call (State c w)
  = (Raised JSONDecodeError, State c (w ++ [resource_get c h (path_of call)])).
Proof.
  intros Hp Hh Hr Hs Hb.
  destruct call; try discriminate Hp; simpl in Hr;
    unfold invoke, get_cost_centers, get_cost_center, get_invoices, get_ledgers,
      get_ledger, get_mutation, get_outstanding_invoices, get_relation,
      get_relations, fetch, resource_get in *;
    run; rewrite Hh, Hr, Hs; simpl; unfold response_json; rewrite Hb; reflexivity.
Qed.

(** X14: when the transport fails, an accessor that is not paginated
    and [close] raise the exception of [requests]; [close] keeps the
    session token. *)
Theorem transport_failure (call : resource_call) (c : client)
    (w : list request) (h : gmap string string) :
  _get_headers py_str_other c = Returned h →
  (paginated call = false →
   server w (resource_get c h (path_of call)) = None →
   invoke py_str_other server call (State c w)
   = (Raised RequestException, State c (w ++ [resource_get c h (path_of call)])))
  ∧ (server w (session_delete c h) = None →
     close py_str_other server (State c w)
     = (Raised RequestException, State c (w ++ [session_delete c h]))).
Proof.
  intros Hh. split.
  - intros Hp Hr.
    destruct call; try discriminate Hp; simpl in Hr;
      unfold invoke, get_cost_centers, get_cost_center, get_invoices, get_ledgers,
        get_ledger, get_mutation, get_outstanding_invoices, get_relation,
        get_relations, fetch, resource_get in *;
      run; rewrite Hh, Hr; reflexivity.
  - intros Hr. unfold close, session_delete in *. run. rewrite Hh, Hr. reflexivity.
Qed.

(** X15: a client that [_authenticate] has signed in (a 200 answer with
    a non-empty string under ["token"]) sends, on its next accessor
    call, the GET of that accessor with the header [Authorization:
    Bearer <token>]. *)
Theorem authenticate_then_accessor (call : resource_call) (c : client)
    (w : list request) (r : response) (b : list (string * json)) (tok : string) :
  server w (session_post c) = Some r →
  status_code r = 200 →
  body r = Some (JObj b) →
  assoc "token" b = Some (JStr tok) →
  tok ≠ "" →
  paginated call = false →
  snd ((_authenticate server;;; invoke py_str_other server call) (State c w))
  = State (set_session_token (JStr tok) c)
      (w ++ [session_post c;
             resource_get c (bearer_headers tok) (path_of call)])
  ∧ req_headers (resource_get c (bearer_headers tok) (path_of call))
      !! "Authorization" = Some ("Bearer " +:+ tok).
Proof.
  intros Hr Hs Hb Htok Hne Hp. split; [|reflexivity].
  unfold bind at 1.
  rewrite (authenticate_200 server c w r b Hr Hs Hb). rewrite Htok. simpl.
  rewrite (accessor_single_request_aux call (set_session_token (JStr tok) c)
             (w ++ [session_post c]) Hp (bearer_headers tok)).
  - rewrite <- app_assoc. reflexivity.
  - unfold _get_headers. simpl.
    destruct tok; [congruence | reflexivity].
Qed.

End AccessorEdges.

Lemma accessor_single_request_witness :
  snd (invoke str_other unreachable (CostCenter "7") (State (signed_in "abc") []))
  = State (signed_in "abc")
      [resource_get (signed_in "abc") (bearer_headers "abc") "/costcenter/7"].
Proof.
  exact (accessor_single_request str_other unreachable (CostCenter "7")
           (signed_in "abc") [] (bearer_headers "abc") eq_refl eq_refl).
Defined.

Lemma accessor_other_status_witness :
  invoke str_other (always (Response 204 None)) OutstandingInvoices
    (State (signed_in "abc") [])
  = (Returned (JObj []),
     State (signed_in "abc")
       [resource_get (signed_in "abc") (bearer_headers "abc")
          "/mutation/invoice/outstanding"]).
Proof.
  apply (accessor_other_status str_other (always (Response 204 None))
           OutstandingInvoices (signed_in "abc") [] (bearer_headers "abc")
           (Response 204 None) eq_refl eq_refl eq_refl).
  - discriminate.
  - simpl. lia.
Defined.

Lemma accessor_undecodable_body_witness :
  invoke str_other (always (Response 200 None)) (Mutation "42")
    (State (signed_in "abc") [])
  = (Raised JSONDecodeError,
     State (signed_in "abc")
       [resource_get (signed_in "abc") (bearer_headers "abc") "/mutation/42"]).
Proof.
  exact (accessor_undecodable_body str_other (always (Response 200 None))
           (Mutation "42") (signed_in "abc") [] (bearer_headers "abc")
           (Response 200 None) eq_refl eq_refl eq_refl eq_refl eq_refl).
Defined.

Lemma transport_failure_witness :
  invoke str_other unreachable Ledgers (State (signed_in "abc") [])
  = (Raised RequestException,
     State (signed_in "abc")
       [resource_get (signed_in "abc") (bearer_headers "abc") "/ledger"])
  ∧ close str_other unreachable (State (signed_in "abc") [])
    = (Raised RequestException,
       State (signed_in "abc")
         [session_delete (signed_in "abc") (bearer_headers "abc")]).
Proof.
  destruct (transport_failure str_other unreachable Ledgers (signed_in "abc") []
              (bearer_headers "abc") eq_refl) as [H1 H2].
  split; [exact (H1 eq_refl eq_refl) | exact (H2 eq_refl)].
Defined.

Lemma authenticate_then_accessor_witness :
  snd ((_authenticate (always (Response 200 (Some (JObj [("token", JStr "abc")]))));;;
        invoke str_other (always (Response 200 (Some (JObj [("token", JStr "abc")]))))
          Invoices) (State fresh []))
  = State (signed_in "abc")
      [session_post fresh; resource_get fresh (bearer_headers "abc") "/invoice"].
Proof.
  destruct (authenticate_then_accessor str_other
              (always (Response 200 (Some (JObj [("token", JStr "abc")]))))
              Invoices fresh [] (Response 200 (Some (JObj [("token", JStr "abc")])))
              [("token", JStr "abc")] "abc" eq_refl eq_refl eq_refl eq_refl
              ltac:(discriminate) eq_refl) as [H _].
  exact H.
Defined.

(** ** The end of a session *)

Section SessionEnd.
Context (py_str_other : json → string).
Context (server : list request → request → option response).

(** X16: [close] touches the client only when it returns [True]:
    whatever the service does, either [close] returns [True] and the
    session token is [None], or the client is exactly as it was; and it
    sends at most one request. *)
Theorem close_all_or_nothing (c : client) (w : list request) :
  (fst (close py_str_other server (State c w)) = Returned true
   ∧ self (snd (close py_str_other server (State c w))) = set_session_token JNull c
   ∨ fst (close py_str_other server (State c w)) ≠ Returned true
     ∧ self (snd (close py_str_other server (State c w))) = c)
  ∧ ∃ new, sent (snd (close py_str_other server (State c w))) = w ++ new
           ∧ (length new ≤ 1)%nat
           ∧ Forall (λ rq, req_method rq = DELETE
                           ∧ req_url rq = api_url c +:+ "/session") new.
Proof.
  unfold close. run.
  destruct (_get_headers py_str_other c) as [h|e|]; simpl.
  - destruct (server w _) as [r|]; simpl.
    + destruct (status_code r =? 204); simpl.
      * split; [left; split; reflexivity|].
        eexists [_]. split; [reflexivity|]. split; [simpl; lia|].
        repeat constructor.
      * split; [right; split; [discriminate | reflexivity]|].
        eexists [_]. split; [reflexivity|]. split; [simpl; lia|].
        repeat constructor.
    + split; [right; split; [discriminate | reflexivity]|].
      eexists [_]. split; [reflexivity|]. split; [simpl; lia|].
      repeat constructor.
  - split; [right; split; [discriminate | reflexivity]|].
    exists []. rewrite app_nil_r. split; [reflexivity|]. split; [simpl; lia|].
    constructor.
  - split; [right; split; [discriminate | reflexivity]|].
    exists []. rewrite app_nil_r. split; [reflexivity|]. split; [simpl; lia|].
    constructor.
Qed.

(** X17: once [close] has returned [True], every resource accessor
    raises a [ValueError] and sends nothing, and so does a further
    [close]: the client cannot be used again until it is signed in
    anew. *)
Theorem closed_client_is_unusable (c : client) (w : list request) (st : state)
    (call : resource_call) :
  close py_str_other server (State c w) = (Returned true, st) →
  (∃ msg, invoke py_str_other server call st = (Raised (ValueError msg), st))
  ∧ (date_filter_ok call = true →
     invoke py_str_other server call st = (Raised auth_error, st))
  ∧ session_token (self st) = JNull.
Proof.
  unfold close at 1. run.
  destruct (_get_headers py_str_other c) as [h| |]; try discriminate.
  destruct (server w _) as [r|]; try discriminate.
  destruct (status_code r =? 204); intros H; inversion H; subst.
  destruct (invoke_without_token py_str_other server call
              (set_session_token JNull c)
              (w ++ [Request DELETE (api_url c +:+ "/session") h None None 10])
              eq_refl) as [H1 H2].
  split; [exact H1|]. split; [exact H2 | reflexivity].
Qed.

(** X18: signing in again after a [close] makes the client usable
    again: [_authenticate] needs no session token, and after a 200
    answer with a non-empty token the header construction succeeds with
    the new token. *)
Theorem reauthenticate_after_close (c : client) (w : list request) (st : state)
    (r : response) (b : list (string * json)) (tok : string) :
  close py_str_other server (State c w) = (Returned true, st) →
  server (sent st) (session_post (self st)) = Some r →
  status_code r = 200 →
  body r = Some (JObj b) →
  assoc "token" b = Some (JStr tok) →
  tok ≠ "" →
  ∃ st', _authenticate server st = (Returned tt, st')
         ∧ self st' = set_session_token (JStr tok) c
         ∧ _get_headers py_str_other (self st') = Returned (bearer_headers tok).
Proof.
  intros Hclose Hr Hs Hb Htok Hne.
  destruct st as [c1 w1]. simpl in Hr.
  assert (Hc1 : c1 = set_session_token JNull c).
  { revert Hclose. unfold close. run.
    destruct (_get_headers py_str_other c) as [h| |]; try discriminate.
    destruct (server w _) as [r0|]; try discriminate.
    destruct (status_code r0 =? 204); intros H; inversion H; reflexivity. }
  subst c1.
  eexists. split; [apply (authenticate_200 server _ w1 r b Hr Hs Hb)|].
  rewrite Htok. simpl. split; [reflexivity|].
  unfold _get_headers. simpl. destruct tok; [congruence | reflexivity].
Qed.

End SessionEnd.

Lemma closed_client_is_unusable_witness :
  invoke str_other (always (Response 204 None)) Relations
    (State (set_session_token JNull (signed_in "abc"))
       [session_delete (signed_in "abc") (bearer_headers "abc")])
  = (Raised auth_error,
     State (set_session_token JNull (signed_in "abc"))
       [session_delete (signed_in "abc") (bearer_headers "abc")]).
Proof.
  destruct (closed_client_is_unusable str_other (always (Response 204 None))
              (signed_in "abc") []
              (State (set_session_token JNull (signed_in "abc"))
                 [session_delete (signed_in "abc") (bearer_headers "abc")])
              Relations eq_refl) as (_ & H & _).
  exact (H eq_refl).
Defined.

Lemma reauthenticate_after_close_witness :
  ∃ st',
    _authenticate (scripted [Response 204 None;
                             Response 200 (Some (JObj [("token", JStr "new")]))])
      (State (set_session_token JNull (signed_in "abc"))
         [session_delete (signed_in "abc") (bearer_headers "abc")])
    = (Returned tt, st')
    ∧ self st' = set_session_token (JStr "new") (signed_in "abc")
    ∧ _get_headers str_other (self st') = Returned (bearer_headers "new").
Proof.
  apply (reauthenticate_after_close str_other
           (scripted [Response 204 None;
                      Response 200 (Some (JObj [("token", JStr "new")]))])
           (signed_in "abc") []
           (State (set_session_token JNull (signed_in "abc"))
              [session_delete (signed_in "abc") (bearer_headers "abc")])
           (Response 200 (Some (JObj [("token", JStr "new")])))
           [("token", JStr "new")] "new" eq_refl eq_refl eq_refl eq_refl eq_refl).
  discriminate.
Defined.

(** ** Pagination: every run of the loop *)

Section PaginationRuns.
Context (py_str_other : json → string).
Context (server : list request → request → option response).

(** Whatever the service answers, the loop leaves the client alone and
    sends at most one request per unit of fuel, each the GET of
    [/mutation] with the session headers and the parameters of some
    page. *)
Lemma mutations_loop_wire (c : client) (h : gmap string string)
    (p0 : gmap string json) :
  _get_headers py_str_other c = Returned h →
  ∀ (fuel : nat) (params : gmap string json) (acc : list json) (offset : Z)
    (w : list request),
    (∀ o, page_params params o = page_params p0 o) →
    ∃ new,
      snd (mutations_loop py_str_other server fuel (api_url c +:+ "/mutation")
             params acc offset (State c w))
      = State c (w ++ new)
      ∧ (length new ≤ fuel)%nat
      ∧ Forall (λ rq, ∃ o, rq = Request GET (api_url c +:+ "/mutation") h
                                  (Some (page_params p0 o)) None 10) new.
Proof.
  intros Hh. induction fuel as [|fuel IH]; intros params acc offset w Hparams.
  - exists []. rewrite app_nil_r. repeat split; [simpl; lia | constructor].
  - assert (Hone : ∃ new,
               State c (w ++ [Request GET (api_url c +:+ "/mutation") h
                                (Some (page_params p0 offset)) None 10])
               = State c (w ++ new)
               ∧ (length new ≤ S fuel)%nat
               ∧ Forall (λ rq, ∃ o, rq = Request GET (api_url c +:+ "/mutation") h
                                           (Some (page_params p0 o)) None 10) new).
    { eexists [_]. split; [reflexivity|]. split; [simpl; lia|].
      constructor; [eauto | constructor]. }
    assert (Hmore : ∀ acc' offset',
               ∃ new,
                 snd (mutations_loop py_str_other server fuel
                        (api_url c +:+ "/mutation") (page_params p0 offset) acc' offset'
                        (State c (w ++ [Request GET (api_url c +:+ "/mutation") h
                                          (Some (page_params p0 offset)) None 10])))
                 = State c (w ++ new)
                 ∧ (length new ≤ S fuel)%nat
                 ∧ Forall (λ rq, ∃ o, rq = Request GET (api_url c +:+ "/mutation") h
                                             (Some (page_params p0 o)) None 10) new).
    { intros acc' offset'.
      destruct (IH (page_params p0 offset) acc' offset'
                  (w ++ [Request GET (api_url c +:+ "/mutation") h
                           (Some (page_params p0 offset)) None 10]))
        as (new & Hsnd & Hlen & Hall).
      { intros o. apply page_params_again. }
      exists (Request GET (api_url c +:+ "/mutation") h
                (Some (page_params p0 offset)) None 10 :: new).
      rewrite Hsnd, <- app_assoc. split; [reflexivity|].
      split; [simpl; lia|]. constructor; [eauto | exact Hall]. }
    simpl mutations_loop. run. rewrite Hh. rewrite Hparams.
    destruct (server w _) as [r|]; [|exact Hone].
    destruct (status_code r =? 200).
    + unfold response_json. destruct (body r) as [j|]; [|exact Hone].
      destruct j as [| | | | |d]; try exact Hone. simpl.
      destruct (truthy (default (JArr []) (assoc "items" d))); simpl;
        [|exact Hone].
      destruct (list_extend acc (default (JArr []) (assoc "items" d)))
        as [acc'| |]; try exact Hone.
      apply Hmore.
    + unfold raise_for_status.
      destruct ((400 <=? status_code r) && (status_code r <? 600));
        [exact Hone | apply Hmore].
Qed.

(** X19: whatever the service answers and whatever its arguments,
    [get_mutations] never changes the client, and every request it
    sends is a GET of [/mutation] with the session headers, a timeout
    of 10 and [limit] 100; it sends at most one per pass of the loop. *)
Theorem get_mutations_requests (fuel : nat) (start_date end_date : option string)
    (date_range : option DateFilterOperator.t) (c : client) (w : list request) :
  ∃ new,
    snd (get_mutations py_str_other server fuel start_date end_date date_range
           (State c w))
    = State c (w ++ new)
    ∧ (length new ≤ fuel)%nat
    ∧ Forall (λ rq, (∃ h, _get_headers py_str_other c = Returned h ∧ session_get c h rq)
                    ∧ req_url rq = api_url c +:+ "/mutation"
                    ∧ ∃ m, req_params rq = Some m
                           ∧ m !! "limit" = Some (JNum PAGE_LIMIT)) new.
Proof.
  assert (Hnone : ∃ new : list request,
             State c w = State c (w ++ new) ∧ (length new ≤ fuel)%nat
             ∧ Forall (λ rq, (∃ h, _get_headers py_str_other c = Returned h
                                   ∧ session_get c h rq)
                             ∧ req_url rq = api_url c +:+ "/mutation"
                             ∧ ∃ m, req_params rq = Some m
                                    ∧ m !! "limit" = Some (JNum PAGE_LIMIT)) new).
  { exists []. rewrite app_nil_r. repeat split; [simpl; lia | constructor]. }
  assert (Hloop : ∀ p0, ∃ new,
             snd ((all_items <- mutations_loop py_str_other server fuel
                                  (api_url c +:+ "/mutation") p0 [] 0;;
                   ret (JObj [("items", JArr all_items)])) (State c w))
             = State c (w ++ new)
             ∧ (length new ≤ fuel)%nat
             ∧ Forall (λ rq, (∃ h, _get_headers py_str_other c = Returned h
                                   ∧ session_get c h rq)
                             ∧ req_url rq = api_url c +:+ "/mutation"
                             ∧ ∃ m, req_params rq = Some m
                                    ∧ m !! "limit" = Some (JNum PAGE_LIMIT)) new).
  { intros p0.
    destruct (_get_headers py_str_other c) as [h|e|] eqn:Hh.
    - destruct (mutations_loop_wire c h p0 Hh fuel p0 [] 0 w (λ o, eq_refl))
        as (new & Hsnd & Hlen & Hall).
      exists new. split; [|split; [exact Hlen|]].
      + unfold bind, ret.
        destruct (mutations_loop py_str_other server fuel _ p0 [] 0 (State c w))
          as [[a| |] st']; simpl in *; exact Hsnd.
      + eapply Forall_impl; [exact Hall|]. intros rq [o ->].
        split; [exists h; split; [reflexivity|]|].
        * unfold session_get. simpl. repeat split. eauto.
        * split; [reflexivity|]. eexists. split; [reflexivity|].
          unfold page_params. apply lookup_insert_eq.
    - destruct fuel as [|fuel']; [exact Hnone|].
      unfold bind at 1.
      rewrite (mutations_loop_headers_raise py_str_other server fuel' _ p0 [] 0 c w e Hh).
      exact Hnone.
    - destruct fuel as [|fuel']; [exact Hnone|].
      unfold bind at 1. simpl mutations_loop. run. rewrite Hh. exact Hnone. }
  unfold get_mutations.
  destruct (truthy_str start_date || truthy_str end_date).
  - unfold bind at 1. unfold get_self. unfold bind at 1. unfold lift at 1.
    destruct (_get_date_filter "date" date_range start_date end_date) as [p0| |];
      [apply Hloop | exact Hnone | exact Hnone].
  - unfold bind at 1. unfold get_self. unfold bind at 1. unfold ret at 1.
    apply Hloop.
Qed.

End PaginationRuns.

Section PaginationEdges.
Context (py_str_other : json → string).
Context (server : list request → request → option response).

(** [get_mutations] is its loop, started on the initial dictionary. *)
Lemma get_mutations_loop (fuel : nat) (start_date end_date : option string)
    (date_range : option DateFilterOperator.t) (p0 : gmap string json)
    (c : client) (w : list request) :
  initial_params start_date end_date date_range = Returned p0 →
  get_mutations py_str_other server fuel start_date end_date date_range (State c w)
  = (all_items <- mutations_loop py_str_other server fuel
                    (api_url c +:+ "/mutation") p0 [] 0;;
     ret (JObj [("items", JArr all_items)])) (State c w).
Proof.
  intros Hp. unfold get_mutations, initial_params in *.
  destruct (truthy_str start_date || truthy_str end_date).
  - unfold bind at 1. unfold get_self. unfold bind at 1. unfold lift at 1.
    rewrite Hp. reflexivity.
  - injection Hp as <-. reflexivity.
Qed.

Lemma filter_key_not_paging (op : DateFilterOperator.t) :
  filter_key "date" op ≠ "offset" ∧ filter_key "date" op ≠ "limit".
Proof. destruct op; split; discriminate. Qed.

Lemma date_filter_entry (op : DateFilterOperator.t) (start_date end_date : option string)
    (p0 : gmap string json) :
  _get_date_filter "date" (Some op) start_date end_date = Returned p0 →
  ∃ v, p0 = {[ filter_key "date" op := JStr v ]}.
Proof.
  unfold _get_date_filter, filter_key.
  destruct (DateFilterOperator.eqb op DateFilterOperator.RANGE);
    repeat match goal with
           | |- context [if ?b then _ else _] => destruct b
           end; intros H; try discriminate H; injection H as <-; eauto.
Qed.

(** X20: when [get_mutations] is given dates that form a filter, every
    request it sends, on every page and whatever the service answers,
    carries exactly three query parameters: the filter entry as
    [_get_date_filter] built it, [offset] and [limit]. *)
Theorem get_mutations_sends_filter (fuel : nat) (start_date end_date : option string)
    (op : DateFilterOperator.t) (p0 : gmap string json)
    (c : client) (w : list request) :
  truthy_str start_date || truthy_str end_date = true →
  _get_date_filter "date" (Some op) start_date end_date = Returned p0 →
  ∃ v new,
    p0 = {[ filter_key "date" op := JStr v ]}
    ∧ snd (get_mutations py_str_other server fuel start_date end_date (Some op)
             (State c w))
      = State c (w ++ new)
    ∧ Forall (λ rq, ∃ m, req_params rq = Some m
                         ∧ m !! filter_key "date" op = Some (JStr v)
                         ∧ dom m = ({[ filter_key "date" op; "offset"; "limit" ]}
                                    : gset string)) new.
Proof.
  intros Hdates Hf.
  destruct (date_filter_entry op start_date end_date p0 Hf) as [v Hv].
  exists v.
  assert (Hp : initial_params start_date end_date (Some op) = Returned p0)
    by (unfold initial_params; rewrite Hdates; exact Hf).
  rewrite (get_mutations_loop fuel _ _ _ p0 c w Hp).
  destruct (_get_headers py_str_other c) as [h|e|] eqn:Hh.
  - destruct (mutations_loop_wire py_str_other server c h p0 Hh fuel p0 [] 0 w
                (λ o, eq_refl)) as (new & Hsnd & _ & Hall).
    exists new. split; [exact Hv|]. split.
    + unfold bind, ret.
      destruct (mutations_loop py_str_other server fuel _ p0 [] 0 (State c w))
        as [[a| |] st']; simpl in *; exact Hsnd.
    + eapply Forall_impl; [exact Hall|]. intros rq [o ->].
      destruct (filter_key_not_paging op) as [Ho Hl].
      eexists. split; [reflexivity|]. subst p0. unfold page_params. split.
      * rewrite !lookup_insert_ne by done. apply lookup_singleton_eq.
      * rewrite !dom_insert_L, dom_singleton_L. apply set_eq. intros x.
        rewrite !elem_of_union, !elem_of_singleton. tauto.
  - exists []. rewrite app_nil_r. split; [exact Hv|]. split; [|constructor].
    destruct fuel as [|fuel']; [reflexivity|].
    unfold bind at 1.
    rewrite (mutations_loop_headers_raise py_str_other server fuel' _ p0 [] 0 c w e Hh).
    reflexivity.
  - exists []. rewrite app_nil_r. split; [exact Hv|]. split; [|constructor].
    destruct fuel as [|fuel']; [reflexivity|].
    unfold bind at 1. simpl mutations_loop. run. rewrite Hh. reflexivity.
Qed.

(** The loop after a run of non-empty pages: the items are gathered,
    the offset has advanced, and the loop goes on with the fuel left. *)
Lemma mutations_loop_prefix (c : client) (h : gmap string string)
    (p0 : gmap string json) (pages : list (list json)) :
  _get_headers py_str_other c = Returned h →
  Forall (λ p, p ≠ []) pages →
  ∀ (fuel : nat) (w : list request) (params : gmap string json)
    (acc : list json) (k : nat),
    (∀ o, page_params params o = page_params p0 o) →
    (∀ i items, pages !! i = Some items →
       server (w ++ map (page_request c h p0) (seq k i)) (page_request c h p0 (k + i))
       = Some (page_response items)) →
    ∃ params',
      (∀ o, page_params params' o = page_params p0 o)
      ∧ mutations_loop py_str_other server (length pages + fuel)
          (api_url c +:+ "/mutation") params acc (PAGE_LIMIT * Z.of_nat k) (State c w)
        = mutations_loop py_str_other server fuel
            (api_url c +:+ "/mutation") params' (acc ++ concat pages)
            (PAGE_LIMIT * Z.of_nat (k + length pages))
            (State c (w ++ map (page_request c h p0) (seq k (length pages)))).
Proof.
  intros Hh Hne. induction Hne as [|pg rest Hpg Hrest IH];
    intros fuel w params acc k Hparams Hsrv.
  - exists params. split; [exact Hparams|]. simpl.
    rewrite !app_nil_r, Nat.add_0_r. reflexivity.
  - pose proof (Hsrv 0%nat pg eq_refl) as H0. simpl in H0.
    rewrite app_nil_r, Nat.add_0_r in H0.
    destruct (IH fuel (w ++ [page_request c h p0 k])
                (page_params p0 (PAGE_LIMIT * Z.of_nat k)) (acc ++ pg) (S k))
      as (params' & Hparams' & Hrun).
    + intros o. apply page_params_again.
    + intros i items Hi. rewrite <- app_assoc. simpl.
      replace (S (k + i))%nat with (k + S i)%nat by lia.
      apply (Hsrv (S i)). exact Hi.
    + exists params'. split; [exact Hparams'|].
      simpl length. simpl Nat.add. simpl mutations_loop. run.
      rewrite Hh. rewrite Hparams.
      unfold page_request in H0. rewrite H0. simpl.
      destruct pg as [|x pg]; [congruence|].
      replace (PAGE_LIMIT * Z.of_nat k + PAGE_LIMIT)
        with (PAGE_LIMIT * Z.of_nat (S k)) by lia.
      change (negb true) with false. cbv beta iota.
      change (Request GET (api_url c +:+ "/mutation") h
                (Some (page_params p0 (PAGE_LIMIT * Z.of_nat k))) None 10)
        with (page_request c h p0 k).
      rewrite Hrun. simpl concat.
      replace (S k + length rest)%nat with (k + S (length rest))%nat by lia.
      rewrite <- !app_assoc. reflexivity.
Qed.

End PaginationEdges.

Section PaginationOutcomes.
Context (py_str_other : json → string).
Context (server : list request → request → option response).

(** One pass of the loop on the answer [r] to the request of page [k]. *)
Lemma mutations_loop_pass (fuel : nat) (c : client) (w : list request)
    (h : gmap string string) (p0 params : gmap string json) (acc : list json)
    (k : nat) (r : response) :
  _get_headers py_str_other c = Returned h →
  (∀ o, page_params params o = page_params p0 o) →
  server w (page_request c h p0 k) = Some r →
  mutations_loop py_str_other server (S fuel) (api_url c +:+ "/mutation")
    params acc (PAGE_LIMIT * Z.of_nat k) (State c w)
  = (if status_code r =? 200 then
       data <- lift (response_json r);;
       items <- lift (py_get data "items" (JArr []));;
       if negb (truthy items) then ret acc
       else
         acc' <- lift (list_extend acc items);;
         mutations_loop py_str_other server fuel (api_url c +:+ "/mutation")
           (page_params p0 (PAGE_LIMIT * Z.of_nat k)) acc'
           (PAGE_LIMIT * Z.of_nat k + PAGE_LIMIT)
     else
       lift (raise_for_status r);;;
       mutations_loop py_str_other server fuel (api_url c +:+ "/mutation")
         (page_params p0 (PAGE_LIMIT * Z.of_nat k)) acc (PAGE_LIMIT * Z.of_nat k))
      (State c (w ++ [page_request c h p0 k])).
Proof.
  intros Hh Hparams Hr. unfold page_request in *. simpl mutations_loop. run.
  rewrite Hh. rewrite Hparams. rewrite Hr.
  destruct (status_code r =? 200); reflexivity.
Qed.

(** [get_mutations] after a run of non-empty pages, at the answer [r]
    to the next page request. *)
Lemma get_mutations_after_pages (c : client) (w : list request)
    (h : gmap string string) (p0 : gmap string json) (pages : list (list json))
    (r : response) (fuel : nat) (start_date end_date : option string)
    (date_range : option DateFilterOperator.t) :
  _get_headers py_str_other c = Returned h →
  initial_params start_date end_date date_range = Returned p0 →
  Forall (λ p, p ≠ []) pages →
  (∀ i items, pages !! i = Some items →
     server (w ++ map (page_request c h p0) (seq 0 i)) (page_request c h p0 i)
     = Some (page_response items)) →
  server (w ++ map (page_request c h p0) (seq 0 (length pages)))
    (page_request c h p0 (length pages)) = Some r →
  (length pages < fuel)%nat →
  get_mutations py_str_other server fuel start_date end_date date_range (State c w)
  = (all_items <-
       (if status_code r =? 200 then
          data <- lift (response_json r);;
          items <- lift (py_get data "items" (JArr []));;
          if negb (truthy items) then ret (concat pages)
          else
            acc' <- lift (list_extend (concat pages) items);;
            mutations_loop py_str_other server (fuel - S (length pages))
              (api_url c +:+ "/mutation")
              (page_params p0 (PAGE_LIMIT * Z.of_nat (length pages))) acc'
              (PAGE_LIMIT * Z.of_nat (length pages) + PAGE_LIMIT)
        else
          lift (raise_for_status r);;;
          mutations_loop py_str_other server (fuel - S (length pages))
            (api_url c +:+ "/mutation")
            (page_params p0 (PAGE_LIMIT * Z.of_nat (length pages))) (concat pages)
            (PAGE_LIMIT * Z.of_nat (length pages)));;
     ret (JObj [("items", JArr all_items)]))
      (State c (w ++ map (page_request c h p0) (seq 0 (S (length pages))))).
Proof.
  intros Hh Hp Hne Hsrv Hr Hfuel.
  rewrite (get_mutations_loop py_str_other server fuel _ _ _ p0 c w Hp).
  replace fuel with (length pages + S (fuel - S (length pages)))%nat at 1 by lia.
  destruct (mutations_loop_prefix py_str_other server c h p0 pages Hh Hne
              (S (fuel - S (length pages))) w p0 [] 0%nat (λ o, eq_refl) Hsrv)
    as (params' & Hparams' & Hrun).
  change (PAGE_LIMIT * Z.of_nat 0) with 0 in Hrun.
  unfold bind at 1. rewrite Hrun. simpl Nat.add.
  rewrite (mutations_loop_pass _ c _ h p0 params' _ _ r Hh Hparams' Hr).
  rewrite seq_S, map_app, app_assoc. reflexivity.
Qed.

(** X21: when, after some non-empty pages, a page request is answered
    with a status from 400 to 599, [get_mutations] raises the
    [HTTPError] of that answer at once: the items gathered so far are
    not returned and nothing more is sent. *)
Theorem get_mutations_error_discards (c : client) (w : list request)
    (h : gmap string string) (p0 : gmap string json) (pages : list (list json))
    (r : response) (fuel : nat) (start_date end_date : option string)
    (date_range : option DateFilterOperator.t) :
  _get_headers py_str_other c = Returned h →
  initial_params start_date end_date date_range = Returned p0 →
  Forall (λ p, p ≠ []) pages →
  (∀ i items, pages !! i = Some items →
     server (w ++ map (page_request c h p0) (seq 0 i)) (page_request c h p0 i)
     = Some (page_response items)) →
  server (w ++ map (page_request c h p0) (seq 0 (length pages)))
    (page_request c h p0 (length pages)) = Some r →
  400 ≤ status_code r < 600 →
  (length pages < fuel)%nat →
  get_mutations py_str_other server fuel start_date end_date date_range (State c w)
  = (Raised (HTTPError r),
     State c (w ++ map (page_request c h p0) (seq 0 (S (length pages))))).
Proof.
  intros Hh Hp Hne Hsrv Hr Hs Hfuel.
  rewrite (get_mutations_after_pages c w h p0 pages r fuel _ _ _ Hh Hp Hne Hsrv Hr Hfuel).
  replace (status_code r =? 200) with false by lia.
  unfold bind, lift, raise_for_status.
  replace ((400 <=? status_code r) && (status_code r <? 600)) with true by lia.
  reflexivity.
Qed.

(** X22: the loop has no bound of its own: against a service that
    answers every page request with a non-empty page, [get_mutations]
    uses up any fuel it is given, one request per unit, with offsets 0,
    100, 200, ..., and returns nothing. *)
Theorem get_mutations_never_stops (c : client) (w : list request)
    (h : gmap string string) (p0 : gmap string json) (page : nat → list json)
    (fuel : nat) (start_date end_date : option string)
    (date_range : option DateFilterOperator.t) :
  _get_headers py_str_other c = Returned h →
  initial_params start_date end_date date_range = Returned p0 →
  (∀ k, page k ≠ []) →
  (∀ k, server (w ++ map (page_request c h p0) (seq 0 k)) (page_request c h p0 k)
        = Some (page_response (page k))) →
  get_mutations py_str_other server fuel start_date end_date date_range (State c w)
  = (OutOfFuel, State c (w ++ map (page_request c h p0) (seq 0 fuel)))
  ∧ offsets (map (page_request c h p0) (seq 0 fuel))
    = map (λ k, Some (JNum (PAGE_LIMIT * Z.of_nat k))) (seq 0 fuel).
Proof.
  intros Hh Hp Hne Hsrv. split; [|apply offsets_page_requests].
  rewrite (get_mutations_loop py_str_other server fuel _ _ _ p0 c w Hp).
  destruct (mutations_loop_prefix py_str_other server c h p0 (map page (seq 0 fuel)) Hh)
    with (fuel := 0%nat) (w := w) (params := p0) (acc := @nil json) (k := 0%nat)
    as (params' & Hparams' & Hrun).
  - apply Forall_forall. intros p Hin. apply list_elem_of_In in Hin.
    apply in_map_iff in Hin. destruct Hin as (k & <- & _). apply Hne.
  - intros o. reflexivity.
  - intros i items Hi.
    change (map page (seq 0 fuel)) with (page <$> seq 0 fuel) in Hi.
    rewrite list_lookup_fmap in Hi.
    destruct (seq 0 fuel !! i) as [k|] eqn:Hk; [|discriminate].
    apply lookup_seq in Hk. destruct Hk as [-> _]. simpl in Hi.
    injection Hi as <-. apply Hsrv.
  - rewrite length_map, length_seq, Nat.add_0_r in Hrun.
    change (PAGE_LIMIT * Z.of_nat 0) with 0 in Hrun.
    unfold bind at 1. rewrite Hrun. reflexivity.
Qed.

(** X23: after some non-empty pages, a 200 answer whose object has no
    ["items"] key, or has it null, empty, zero or false, ends the
    listing just as an empty list does: [get_mutations] returns the
    items gathered so far. *)
Theorem get_mutations_stops_without_items (c : client) (w : list request)
    (h : gmap string string) (p0 : gmap string json) (pages : list (list json))
    (r : response) (d : list (string * json)) (fuel : nat)
    (start_date end_date : option string)
    (date_range : option DateFilterOperator.t) :
  _get_headers py_str_other c = Returned h →
  initial_params start_date end_date date_range = Returned p0 →
  Forall (λ p, p ≠ []) pages →
  (∀ i items, pages !! i = Some items →
     server (w ++ map (page_request c h p0) (seq 0 i)) (page_request c h p0 i)
     = Some (page_response items)) →
  server (w ++ map (page_request c h p0) (seq 0 (length pages)))
    (page_request c h p0 (length pages)) = Some r →
  status_code r = 200 →
  body r = Some (JObj d) →
  truthy (default (JArr []) (assoc "items" d)) = false →
  (length pages < fuel)%nat →
  get_mutations py_str_other server fuel start_date end_date date_range (State c w)
  = (Returned (JObj [("items", JArr (concat pages))]),
     State c (w ++ map (page_request c h p0) (seq 0 (S (length pages))))).
Proof.
  intros Hh Hp Hne Hsrv Hr Hs Hb Hitems Hfuel.
  rewrite (get_mutations_after_pages c w h p0 pages r fuel _ _ _ Hh Hp Hne Hsrv Hr Hfuel).
  rewrite Hs. unfold bind, lift, response_json. rewrite Hb. simpl.
  rewrite Hitems. reflexivity.
Qed.

(** X24: after some non-empty pages, a 200 answer whose body does not
    decode, or decodes to something that is not an object, makes
    [get_mutations] raise ([JSONDecodeError], [AttributeError]); the
    items gathered so far are not returned. *)
Theorem get_mutations_malformed_page (c : client) (w : list request)
    (h : gmap string string) (p0 : gmap string json) (pages : list (list json))
    (r : response) (fuel : nat) (start_date end_date : option string)
    (date_range : option DateFilterOperator.t) :
  _get_headers py_str_other c = Returned h →
  initial_params start_date end_date date_range = Returned p0 →
  Forall (λ p, p ≠ []) pages →
  (∀ i items, pages !! i = Some items →
     server (w ++ map (page_request c h p0) (seq 0 i)) (page_request c h p0 i)
     = Some (page_response items)) →
  server (w ++ map (page_request c h p0) (seq 0 (length pages)))
    (page_request c h p0 (length pages)) = Some r →
  status_code r = 200 →
  (length pages < fuel)%nat →
  (body r = None →
   get_mutations py_str_other server fuel start_date end_date date_range (State c w)
   = (Raised JSONDecodeError,
      State c (w ++ map (page_request c h p0) (seq 0 (S (length pages))))))
  ∧ (∀ j, body r = Some j → (∀ b, j ≠ JObj b) →
     get_mutations py_str_other server fuel start_date end_date date_range (State c w)
     = (Raised AttributeError,
        State c (w ++ map (page_request c h p0) (seq 0 (S (length pages)))))).
Proof.
  intros Hh Hp Hne Hsrv Hr Hs Hfuel.
  rewrite (get_mutations_after_pages c w h p0 pages r fuel _ _ _ Hh Hp Hne Hsrv Hr Hfuel).
  rewrite Hs. unfold bind, lift, response_json. split.
  - intros Hb. rewrite Hb. reflexivity.
  - intros j Hb Hj. rewrite Hb.
    destruct j; try reflexivity. exfalso. exact (Hj d eq_refl).
Qed.

End PaginationOutcomes.

Lemma get_mutations_sends_filter_witness :
  ∃ v new,
    ({[ "date[gte]" := JStr "2024-01-01" ]} : gmap string json)
    = {[ filter_key "date" DateFilterOperator.GTE := JStr v ]}
    ∧ snd (get_mutations str_other (always (page_response [JNum 1])) 2
             (Some "2024-01-01") None (Some DateFilterOperator.GTE)
             (State (signed_in "abc") []))
      = State (signed_in "abc") ([] ++ new)
    ∧ Forall (λ rq, ∃ m, req_params rq = Some m
                         ∧ m !! filter_key "date" DateFilterOperator.GTE = Some (JStr v)
                         ∧ dom m = ({[ filter_key "date" DateFilterOperator.GTE;
                                       "offset"; "limit" ]} : gset string)) new.
Proof.
  exact (get_mutations_sends_filter str_other (always (page_response [JNum 1])) 2
           (Some "2024-01-01") None DateFilterOperator.GTE
           {[ "date[gte]" := JStr "2024-01-01" ]} (signed_in "abc") []
           eq_refl eq_refl).
Defined.

Lemma get_mutations_error_discards_witness :
  get_mutations str_other
    (scripted [page_response [JNum 1]; page_response [JNum 2]; Response 503 None])
    5 None None None (State (signed_in "abc") [])
  = (Raised (HTTPError (Response 503 None)),
     State (signed_in "abc")
       ([] ++ map (page_request (signed_in "abc") (bearer_headers "abc") ∅)
                [0; 1; 2]%nat)).
Proof.
  apply (get_mutations_error_discards str_other
           (scripted [page_response [JNum 1]; page_response [JNum 2];
                      Response 503 None])
           (signed_in "abc") [] (bearer_headers "abc") ∅ [[JNum 1]; [JNum 2]]
           (Response 503 None) 5 None None None eq_refl eq_refl).
  - repeat constructor; discriminate.
  - intros i items Hi. destruct i as [|[|i]]; simpl in Hi; try discriminate;
      injection Hi as <-; reflexivity.
  - reflexivity.
  - simpl. lia.
  - simpl. lia.
Defined.

Lemma get_mutations_never_stops_witness :
  get_mutations str_other (always (page_response [JNum 1])) 5 None None None
    (State (signed_in "abc") [])
  = (OutOfFuel,
     State (signed_in "abc")
       ([] ++ map (page_request (signed_in "abc") (bearer_headers "abc") ∅)
                [0; 1; 2; 3; 4]%nat)).
Proof.
  destruct (get_mutations_never_stops str_other (always (page_response [JNum 1]))
              (signed_in "abc") [] (bearer_headers "abc") ∅ (λ _, [JNum 1]) 5
              None None None eq_refl eq_refl) as [H _].
  - intros k. discriminate.
  - intros k. reflexivity.
  - exact H.
Defined.

Lemma get_mutations_stops_without_items_witness :
  get_mutations str_other
    (scripted [page_response [JNum 1]; Response 200 (Some (JObj [("total", JNum 1)]))])
    5 None None None (State (signed_in "abc") [])
  = (Returned (JObj [("items", JArr [JNum 1])]),
     State (signed_in "abc")
       ([] ++ map (page_request (signed_in "abc") (bearer_headers "abc") ∅)
                [0; 1]%nat)).
Proof.
  apply (get_mutations_stops_without_items str_other
           (scripted [page_response [JNum 1];
                      Response 200 (Some (JObj [("total", JNum 1)]))])
           (signed_in "abc") [] (bearer_headers "abc") ∅ [[JNum 1]]
           (Response 200 (Some (JObj [("total", JNum 1)]))) [("total", JNum 1)]
           5 None None None eq_refl eq_refl).
  - repeat constructor; discriminate.
  - intros i items Hi. destruct i as [|i]; simpl in Hi; try discriminate;
      injection Hi as <-; reflexivity.
  - reflexivity.
  - reflexivity.
  - reflexivity.
  - reflexivity.
  - simpl. lia.
Defined.

Lemma get_mutations_malformed_page_witness :
  get_mutations str_other (scripted [page_response [JNum 1]; Response 200 None])
    5 None None None (State (signed_in "abc") [])
  = (Raised JSONDecodeError,
     State (signed_in "abc")
       ([] ++ map (page_request (signed_in "abc") (bearer_headers "abc") ∅)
                [0; 1]%nat))
  ∧ get_mutations str_other
      (scripted [page_response [JNum 1]; Response 200 (Some (JArr []))])
      5 None None None (State (signed_in "abc") [])
    = (Raised AttributeError,
       State (signed_in "abc")
         ([] ++ map (page_request (signed_in "abc") (bearer_headers "abc") ∅)
                  [0; 1]%nat)).
Proof.
  split.
  - destruct (get_mutations_malformed_page str_other
                (scripted [page_response [JNum 1]; Response 200 None])
                (signed_in "abc") [] (bearer_headers "abc") ∅ [[JNum 1]]
                (Response 200 None) 5 None None None eq_refl eq_refl) as [H _].
    + repeat constructor; discriminate.
    + intros i items Hi. destruct i as [|i]; simpl in Hi; try discriminate;
        injection Hi as <-; reflexivity.
    + reflexivity.
    + reflexivity.
    + simpl. lia.
    + exact (H eq_refl).
  - destruct (get_mutations_malformed_page str_other
                (scripted [page_response [JNum 1]; Response 200 (Some (JArr []))])
                (signed_in "abc") [] (bearer_headers "abc") ∅ [[JNum 1]]
                (Response 200 (Some (JArr []))) 5 None None None eq_refl eq_refl)
      as [_ H].
    + repeat constructor; discriminate.
    + intros i items Hi. destruct i as [|i]; simpl in Hi; try discriminate;
        injection Hi as <-; reflexivity.
    + reflexivity.
    + reflexivity.
    + simpl. lia.
    + apply (H (JArr [])); [reflexivity | discriminate].
Defined.
